(** * Liquibase-Generator: the scanner, the type mapper, the change
      generators and the command-line driver of [main.py], embedded in Rocq.

    Python text is modelled as [string] (characters are the code points
    U+0000 to U+00FF), [None]-or-[str] values as [option string], the
    [type_mapping] dict and the file system as [gmap]s keyed by strings, and
    a raised exception as the left injection of a sum. *)

From Stdlib Require Import String Ascii List Arith Lia.
From stdpp Require Import base option list gmap strings.
Import ListNotations.

Local Open Scope string_scope.

(** ** Python strings *)

Module Py.

(** The double quote and the line feed, which the f-strings of the source
    interpolate between the literal pieces. *)
Definition dq : string := String "034"%char EmptyString.
Definition nl : string := String "010"%char EmptyString.
Definition cr : ascii := "013"%char.
Definition lf : ascii := "010"%char.

(** [str(v)] as an f-string placeholder applies it: [None] prints as the
    four letters of its name. *)
Definition str (v : option string) : string :=
  match v with
  | Some s => s
  | None => "None"
  end.

(** Truth value of a [None]-or-[str] value: [None] and the empty string are
    false. *)
Definition truthy (v : option string) : bool :=
  match v with
  | Some (String _ _) => true
  | _ => false
  end.

(** Truth value of a list: only the empty list is false. *)
Definition truthy_list {A : Type} (l : list A) : bool :=
  match l with
  | [] => false
  | _ :: _ => true
  end.

(** [sep.join(parts)]. *)
Fixpoint join (sep : string) (parts : list string) : string :=
  match parts with
  | [] => EmptyString
  | [p] => p
  | p :: rest => p ++ sep ++ join sep rest
  end.

(** [s.startswith(p)]. *)
Fixpoint startswith (p s : string) : bool :=
  match p, s with
  | EmptyString, _ => true
  | String a p', String b s' => if Ascii.eqb a b then startswith p' s' else false
  | String _ _, EmptyString => false
  end.

(** [old in s]. *)
Fixpoint contains (old s : string) : bool :=
  startswith old s ||
  match s with
  | EmptyString => false
  | String _ s' => contains old s'
  end.

(** [s.replace(old, new)] for a non-empty [old]: the occurrences of [old]
    are found from the left, never overlapping, and each one is replaced.
    [skip] counts the characters of the occurrence just replaced that are
    still to be passed over. *)
Fixpoint replace_from (old new : string) (skip : nat) (s : string) : string :=
  match s with
  | EmptyString => EmptyString
  | String c s' =>
      match skip with
      | S n => replace_from old new n s'
      | O =>
          if startswith old s
          then new ++ replace_from old new (String.length old - 1) s'
          else String c (replace_from old new 0 s')
      end
  end.

(** For an empty [old], Python puts [new] before every character and at the
    end. *)
Fixpoint intersperse (new s : string) : string :=
  match s with
  | EmptyString => new
  | String c s' => new ++ String c (intersperse new s')
  end.

Definition replace (old new s : string) : string :=
  match old with
  | EmptyString => intersperse new s
  | String _ _ => replace_from old new 0 s
  end.

(** Text mode with universal newlines, as [open(path, 'r')] reads: a
    carriage return followed by a line feed, and a carriage return alone,
    both arrive as one line feed. *)
Fixpoint universal_newlines (s : string) : string :=
  match s with
  | EmptyString => EmptyString
  | String c s' =>
      if Ascii.eqb c cr then
        match s' with
        | String c' s'' =>
            if Ascii.eqb c' lf then universal_newlines s'
            else String lf (universal_newlines s')
        | EmptyString => String lf EmptyString
        end
      else String c (universal_newlines s')
  end.

(** [file.readlines()]: the text cut after every line feed, each line
    keeping its line feed; a last line without one is kept as it is, and an
    empty text has no line. [cur] is the part of the current line read so
    far. *)
Fixpoint split_lines (cur : string) (s : string) : list string :=
  match s with
  | EmptyString =>
      match cur with
      | EmptyString => []
      | String _ _ => [cur]
      end
  | String c s' =>
      if Ascii.eqb c lf then (cur ++ String c EmptyString) :: split_lines EmptyString s'
      else split_lines (cur ++ String c EmptyString) s'
  end.

Definition readlines (text : string) : list string :=
  split_lines EmptyString (universal_newlines text).

End Py.

(** ** Regular expressions

    The fragment of Python's [re] syntax that the scanner's four patterns
    use, with the matching order of a backtracking matcher: a greedy
    repetition tries the longest run first, a lazy one the shortest, an
    alternation its left branch first, and [search] the leftmost start. *)

Module Re.

Inductive regex : Type :=
| Str (s : string)                 (* literal text *)
| Star (p : ascii -> bool)         (* [c*], greedy *)
| Plus (p : ascii -> bool)         (* [c+], greedy *)
| LazyStar (p : ascii -> bool)     (* [c*?] *)
| Cat (r1 r2 : regex)
| Alt (r1 r2 : regex)              (* [r1|r2] *)
| Grp (n : nat) (r : regex).       (* the [n]-th capturing group *)

(** A pattern written as the sequence of its pieces. *)
Fixpoint seq (rs : list regex) : regex :=
  match rs with
  | [] => Str EmptyString
  | [r] => r
  | r :: rs' => Cat r (seq rs')
  end.

Definition between (lo hi : nat) (c : ascii) : bool :=
  Nat.leb lo (nat_of_ascii c) && Nat.leb (nat_of_ascii c) hi.

(** [\s] on a [str] pattern: the Unicode white space below U+0100. *)
Definition space (c : ascii) : bool :=
  between 9 13 c || between 28 32 c || between 133 133 c || between 160 160 c.

(** [\w] on a [str] pattern: the underscore and the Unicode alphanumerics
    below U+0100 (letters, digits, and the superscript digits and vulgar
    fractions, which [str.isalnum] accepts). *)
Definition word (c : ascii) : bool :=
  between 48 57 c || between 65 90 c || between 95 95 c || between 97 122 c
  || between 170 170 c || between 178 179 c || between 181 181 c
  || between 185 186 c || between 188 190 c
  || between 192 214 c || between 216 246 c || between 248 255 c.

(** [.] without [re.DOTALL]: anything but a line feed. *)
Definition dot (c : ascii) : bool := negb (Ascii.eqb c Py.lf).

(** The groups set so far, the latest first. *)
Definition captures : Type := list (nat * string).

(** [m.group(n)]: the text of group [n], or [None] when the group took no
    part in the match. *)
Fixpoint group (m : captures) (n : nat) : option string :=
  match m with
  | [] => None
  | (i, s) :: m' => if Nat.eqb i n then Some s else group m' n
  end.

Fixpoint drop_prefix (p s : string) : option string :=
  match p, s with
  | EmptyString, _ => Some s
  | String a p', String b s' => if Ascii.eqb a b then drop_prefix p' s' else None
  | String _ _, EmptyString => None
  end.

Section Matcher.
Context {A : Type}.

Definition orelse (x : option A) (y : option A) : option A :=
  match x with
  | Some _ => x
  | None => y
  end.

Fixpoint star_greedy (p : ascii -> bool) (s : string)
         (k : string -> option A) : option A :=
  match s with
  | String c s' =>
      if p c then orelse (star_greedy p s' k) (k s) else k s
  | EmptyString => k s
  end.

Fixpoint star_lazy (p : ascii -> bool) (s : string)
         (k : string -> option A) : option A :=
  orelse (k s)
    match s with
    | String c s' => if p c then star_lazy p s' k else None
    | EmptyString => None
    end.

(** [rmatch r s g k]: match [r] at the start of [s] with the groups [g]
    set, and hand the rest of the text and the groups to [k]; when [k]
    fails, the next way of matching [r] is tried. *)
Fixpoint rmatch (r : regex) (s : string) (g : captures)
         (k : string -> captures -> option A) : option A :=
  match r with
  | Str p =>
      match drop_prefix p s with
      | Some s' => k s' g
      | None => None
      end
  | Star p => star_greedy p s (fun s' => k s' g)
  | Plus p =>
      match s with
      | String c s' => if p c then star_greedy p s' (fun s'' => k s'' g) else None
      | EmptyString => None
      end
  | LazyStar p => star_lazy p s (fun s' => k s' g)
  | Cat r1 r2 => rmatch r1 s g (fun s' g' => rmatch r2 s' g' k)
  | Alt r1 r2 => orelse (rmatch r1 s g k) (rmatch r2 s g k)
  | Grp n r =>
      rmatch r s g (fun s' g' =>
        k s' ((n, String.substring 0 (String.length s - String.length s') s) :: g'))
  end.
End Matcher.

(** [re.search(r, s)]: the first match, trying every start from the left,
    the end of the text included. *)
Fixpoint search (r : regex) (s : string) : option captures :=
  match rmatch r s [] (fun _ g => Some g) with
  | Some m => Some m
  | None =>
      match s with
      | String _ s' => search r s'
      | EmptyString => None
      end
  end.

(** The groups that every match of [r] sets: those of both parts of a
    sequence, those common to the two branches of an alternation. *)
Fixpoint groups_set (r : regex) : list nat :=
  match r with
  | Cat r1 r2 => (groups_set r1 ++ groups_set r2)%list
  | Alt r1 r2 => filter (fun n => n ∈ groups_set r2) (groups_set r1)
  | Grp n r => n :: groups_set r
  | _ => []
  end.

End Re.

(** ** Exceptions *)

(** The exceptions that reach the handler of [main]: the one of a list
    index out of range, the one of a path that names nothing, and any other
    error of the operating system, with its message. *)
Inductive exception : Type :=
| IndexError
| FileNotFoundError (path : string)
| OSError (message : string).

(** [str(e)], as the handler of [main] prints it. *)
Definition exception_str (e : exception) : string :=
  match e with
  | IndexError => "list index out of range"
  | FileNotFoundError path =>
      "[Errno 2] No such file or directory: '" ++ path ++ "'"
  | OSError message => message
  end.

(** A computation that returns a value or raises. *)
Definition result (A : Type) : Type := exception + A.

Definition raise {A : Type} (e : exception) : result A := inl e.

Definition bind {A B : Type} (m : result A) (k : A -> result B) : result B :=
  match m with
  | inl e => inl e
  | inr a => k a
  end.

Notation "'let*' x ':=' m 'in' k" := (bind m (fun x => k))
  (at level 10, x pattern, m at level 100, k at level 200).

(** [lines[i]] for [i >= 0]. *)
Definition getitem (lines : list string) (i : nat) : result string :=
  match lines !! i with
  | Some line => inr line
  | None => raise IndexError
  end.

(** ** The entity scanner *)

(** [@Table\(name\s*=\s*"(.*?)"\)] *)
Definition table_re : Re.regex :=
  Re.seq [Re.Str "@Table(name"; Re.Star Re.space; Re.Str "="; Re.Star Re.space;
          Re.Str Py.dq; Re.Grp 1 (Re.LazyStar Re.dot); Re.Str Py.dq; Re.Str ")"].

(** [@Column\(name\s*=\s*"(.*?)"\)] *)
Definition column_re : Re.regex :=
  Re.seq [Re.Str "@Column(name"; Re.Star Re.space; Re.Str "="; Re.Star Re.space;
          Re.Str Py.dq; Re.Grp 1 (Re.LazyStar Re.dot); Re.Str Py.dq; Re.Str ")"].

(** [(private|protected|public)\s+(\w+)\s+\w+;] *)
Definition field_re : Re.regex :=
  Re.seq [Re.Grp 1 (Re.Alt (Re.Str "private")
                      (Re.Alt (Re.Str "protected") (Re.Str "public")));
          Re.Plus Re.space; Re.Grp 2 (Re.Plus Re.word); Re.Plus Re.space;
          Re.Plus Re.word; Re.Str ";"].

(** [public\s+(\w+)\s+\w+\(\)] *)
Definition method_re : Re.regex :=
  Re.seq [Re.Str "public"; Re.Plus Re.space; Re.Grp 1 (Re.Plus Re.word);
          Re.Plus Re.space; Re.Plus Re.word; Re.Str "()"].

(** A scanned column: the name is what [group(1)] gave, the type a [str]
    that passed the truth test. *)
Definition column : Type := option string * string.

(** What the loop carries from line to line: [table_name] and [columns]. *)
Definition scan_state : Type := option string * list column.

(** The body of the [for i, line in enumerate(lines)] loop. *)
Definition scan_line (lines : list string) (st : scan_state)
           (i : nat) (line : string) : result scan_state :=
  let '(table_name, columns) := st in
  let table_name :=
    match Re.search table_re line with
    | Some table_match => Re.group table_match 1
    | None => table_name
    end in
  match Re.search column_re line with
  | Some column_match =>
      let column_name := Re.group column_match 1 in
      let column_type : option string := None in
      let* column_type :=
        if Nat.ltb (i + 1) (length lines) then
          let* next := getitem lines (i + 1) in
          match Re.search field_re next with
          | Some field_match => inr (Re.group field_match 2)
          | None => inr column_type
          end
        else inr column_type in
      let* column_type :=
        match column_type with
        | None =>
            let* next := getitem lines (i + 1) in
            match Re.search method_re next with
            | Some method_match => inr (Re.group method_match 1)
            | None => inr column_type
            end
        | Some _ => inr column_type
        end in
      match column_type with
      | Some (String _ _ as ty) => inr (table_name, (columns ++ [(column_name, ty)])%list)
      | _ => inr (table_name, columns)
      end
  | None => inr (table_name, columns)
  end.

(** [enumerate(lines)]. *)
Definition enumerate (lines : list string) : list (nat * string) :=
  combine (seq 0 (length lines)) lines.

(** The loop over the lines read, from [table_name = None] and
    [columns = []]; an exception raised by one line ends it. *)
Definition scan (lines : list string) : result scan_state :=
  fold_left
    (fun acc '(i, line) => let* st := acc in scan_line lines st i line)
    (enumerate lines) (inr (None, [])).

(** [parse_java_entity(file_path)] on the files [fs], a map from paths to
    the text of readable regular files. *)
Definition parse_java_entity (fs : gmap string string) (file_path : string)
  : result scan_state :=
  match fs !! file_path with
  | None => raise (FileNotFoundError file_path)
  | Some text => scan (Py.readlines text)
  end.

(** ** The type mapper *)

Definition type_mapping : gmap string string :=
  list_to_map
    [("String", "VARCHAR(255)");
     ("int", "INTEGER");
     ("Integer", "INTEGER");
     ("long", "BIGINT");
     ("Long", "BIGINT");
     ("boolean", "BOOLEAN");
     ("Boolean", "BOOLEAN");
     ("Date", "TIMESTAMP");
     ("BigDecimal", "DECIMAL(19,2)")].

Definition map_java_type_to_db_type (java_type : string) : string :=
  default "VARCHAR(255)" (type_mapping !! java_type).

(** ** The change generators

    Each returns the pair (forward fragment, rollback fragment). The table
    name is whatever the scanner returned, [None] included; an f-string
    prints it with [str]. *)

Definition generate_add_column_query (table_name : option string)
           (column_name column_type : string) : string * string :=
  let db_type := map_java_type_to_db_type column_type in
  ("<addColumn tableName=" ++ Py.dq ++ Py.str table_name ++ Py.dq ++ ">" ++ Py.nl
   ++ "    <column name=" ++ Py.dq ++ column_name ++ Py.dq
   ++ " type=" ++ Py.dq ++ db_type ++ Py.dq ++ "/>" ++ Py.nl
   ++ "</addColumn>",
   "<dropColumn tableName=" ++ Py.dq ++ Py.str table_name ++ Py.dq
   ++ " columnName=" ++ Py.dq ++ column_name ++ Py.dq ++ "/>").

Definition generate_delete_column_query (table_name : option string)
           (column_name : string) : string * string :=
  ("<dropColumn tableName=" ++ Py.dq ++ Py.str table_name ++ Py.dq
   ++ " columnName=" ++ Py.dq ++ column_name ++ Py.dq ++ "/>",
   "<addColumn tableName=" ++ Py.dq ++ Py.str table_name ++ Py.dq ++ ">" ++ Py.nl
   ++ "    <column name=" ++ Py.dq ++ column_name ++ Py.dq
   ++ " type=" ++ Py.dq ++ "VARCHAR(255)" ++ Py.dq ++ "/>" ++ Py.nl
   ++ "</addColumn>").

Definition generate_modify_column_query (table_name : option string)
           (column_name column_type : string) : string * string :=
  let db_type := map_java_type_to_db_type column_type in
  ("<modifyDataType tableName=" ++ Py.dq ++ Py.str table_name ++ Py.dq
   ++ " columnName=" ++ Py.dq ++ column_name ++ Py.dq
   ++ " newDataType=" ++ Py.dq ++ db_type ++ Py.dq ++ "/>",
   "<modifyDataType tableName=" ++ Py.dq ++ Py.str table_name ++ Py.dq
   ++ " columnName=" ++ Py.dq ++ column_name ++ Py.dq
   ++ " newDataType=" ++ Py.dq ++ "VARCHAR(255)" ++ Py.dq ++ "/>").

(** The line that the loop of [generate_create_table_query] appends for one
    column. *)
Definition column_line (c : column) : string :=
  let '(column_name, java_type) := c in
  let db_type := map_java_type_to_db_type java_type in
  "    <column name=" ++ Py.dq ++ Py.str column_name ++ Py.dq
  ++ " type=" ++ Py.dq ++ db_type ++ Py.dq ++ "/>".

Definition generate_create_table_query (table_name : option string)
           (columns : list column) : string * string :=
  let xml_lines := ["<createTable tableName=" ++ Py.dq ++ Py.str table_name ++ Py.dq ++ ">"] in
  let rollback_lines := ["<dropTable tableName=" ++ Py.dq ++ Py.str table_name ++ Py.dq ++ "/>"] in
  let xml_lines :=
    fold_left (fun xml_lines c => (xml_lines ++ [column_line c])%list)
              columns xml_lines in
  let xml_lines := (xml_lines ++ ["</createTable>"])%list in
  (Py.join Py.nl xml_lines, Py.join Py.nl rollback_lines).

(** ** The command-line driver *)

(** The parsed arguments: [-f] is required, the three directives are
    [None] when not given; [-c] and [-m] take two values each. *)
Record Namespace : Type := {
  file : string;
  add_column : option (string * string);
  delete_column : option string;
  modify_column : option (string * string)
}.

(** What a run can observe and change. [resolve] gives the file that a
    path names: two paths that name one file (a symbolic link, a detour
    through [..]) resolve alike. [files] holds the text of the readable
    regular files whose bytes decode, by the file they are. [open_error]
    is the exception that [open(path, 'w')] raises for a path, if any (a
    directory that does not exist, a missing permission). [stdout] holds
    the lines printed so far. *)
Record World : Type := {
  files : gmap string string;
  stdout : list string;
  resolve : string -> string;
  open_error : string -> option exception
}.

Definition print (line : string) (w : World) : World :=
  {| files := files w; stdout := (stdout w ++ [line])%list;
     resolve := resolve w; open_error := open_error w |}.

(** The file that [path] names holds [text]: what an [open(path, 'w')]
    that succeeds, followed by writes that add up to [text], leaves. *)
Definition store (path text : string) (w : World) : World :=
  {| files := <[resolve w path := text]> (files w); stdout := stdout w;
     resolve := resolve w; open_error := open_error w |}.

(** [open(path, 'w')] followed by writes that add up to [text]: the open
    raises what the world says, and nothing is written then; otherwise the
    file is created or replaced. *)
Definition write_file (path text : string) (w : World) : result World :=
  match open_error w path with
  | Some e => raise e
  | None => inr (store path text w)
  end.

(** [args.file.replace('.java', '_liquibase_query.xml')]. *)
Definition output_file (path : string) : string :=
  Py.replace ".java" "_liquibase_query.xml" path.

(** The ten [file.write] calls, in order. *)
Definition document (query rollback_query : string) : string :=
  "<?xml version=" ++ Py.dq ++ "1.0" ++ Py.dq ++ " encoding=" ++ Py.dq ++ "UTF-8" ++ Py.dq ++ "?>" ++ Py.nl
  ++ "<databaseChangeLog xmlns=" ++ Py.dq ++ "http://www.liquibase.org/xml/ns/dbchangelog" ++ Py.dq ++ Py.nl
  ++ "                  xmlns:xsi=" ++ Py.dq ++ "http://www.w3.org/2001/XMLSchema-instance" ++ Py.dq ++ Py.nl
  ++ "                  xsi:schemaLocation=" ++ Py.dq ++ "http://www.liquibase.org/xml/ns/dbchangelog" ++ Py.nl
  ++ "                  http://www.liquibase.org/xml/ns/dbchangelog/dbchangelog-3.8.xsd" ++ Py.dq ++ ">" ++ Py.nl
  ++ Py.nl ++ "    <changeSet id=" ++ Py.dq ++ "1" ++ Py.dq ++ " author=" ++ Py.dq ++ "generated" ++ Py.dq ++ ">" ++ Py.nl
  ++ "        " ++ query ++ Py.nl
  ++ "        <rollback>" ++ Py.nl ++ "            " ++ rollback_query ++ Py.nl ++ "        </rollback>" ++ Py.nl
  ++ "    </changeSet>" ++ Py.nl
  ++ "</databaseChangeLog>" ++ Py.nl.

(** The end of the [try] block: derive the output path, open it and write
    the document, report success. An exception of the open leaves the
    block before anything is written or printed. *)
Definition write_changelog (args : Namespace) (generated : string * string)
           (w : World) : result World :=
  let '(query, rollback_query) := generated in
  let output_file := output_file (file args) in
  let* w := write_file output_file (document query rollback_query) w in
  inr (print ("Liquibase XML created successfully: " ++ output_file) w).

(** The [if]/[elif]/[else] chain on the directives. [args.add_column] and
    [args.modify_column] are lists of two strings or [None], so they are
    true exactly when given; [args.delete_column] is a string or [None], so
    it is true when given and not empty. [None] is the early [return]. *)
Definition generate (args : Namespace) (table_name : option string)
           (columns : list column) : option (string * string) :=
  match add_column args with
  | Some (column_name, column_type) =>
      Some (generate_add_column_query table_name column_name column_type)
  | None =>
      match delete_column args with
      | Some (String _ _ as column_name) =>
          Some (generate_delete_column_query table_name column_name)
      | _ =>
          match modify_column args with
          | Some (column_name, column_type) =>
              Some (generate_modify_column_query table_name column_name column_type)
          | None =>
              if negb (Py.truthy table_name) || negb (Py.truthy_list columns)
              then None
              else Some (generate_create_table_query table_name columns)
          end
      end
  end.

(** The body of the [try] block: the file that [args.file] names is
    scanned, a generator chosen, the change log written. *)
Definition run (args : Namespace) (w : World) : result World :=
  let* (table_name, columns) :=
    parse_java_entity (files w) (resolve w (file args)) in
  match generate args table_name columns with
  | Some generated => write_changelog args generated w
  | None => inr (print "Error: Could not parse table name or columns." w)
  end.

(** [main()] once the command line is parsed into [args]: the test of
    [os.path.exists], then the [try] block with its handler, which prints
    the message of whatever the block raised. *)
Definition main (args : Namespace) (w : World) : World :=
  if negb (bool_decide (is_Some (files w !! resolve w (file args)))) then
    print ("Error: File '" ++ file args ++ "' not found.") w
  else
    match run args w with
    | inr w' => w'
    | inl e => print ("Error: " ++ exception_str e) w
    end.

(** The world that a run leaves when it has written the change log made of
    [generated] and reported success. *)
Definition changelog_written (args : Namespace) (generated : string * string)
           (w : World) : World :=
  print ("Liquibase XML created successfully: " ++ output_file (file args))
    (store (output_file (file args))
       (document (fst generated) (snd generated)) w).

(** ** What the scanner computes, stated on the lines *)

(** The assignment [table_name = table_match.group(1)] that one line makes,
    or leaves undone. *)
Definition table_update (table_name : option string) (line : string)
  : option string :=
  match Re.search table_re line with
  | Some table_match => Re.group table_match 1
  | None => table_name
  end.

(** The column that an annotation on [line] adds when [next] is the line
    right after it: a field declaration is looked for first, then a getter. *)
Definition column_entry (line next : string) : option column :=
  match Re.search column_re line with
  | None => None
  | Some column_match =>
      let field_type :=
        match Re.search field_re next with
        | Some field_match => Re.group field_match 2
        | None => None
        end in
      let column_type :=
        match field_type with
        | Some _ => field_type
        | None =>
            match Re.search method_re next with
            | Some method_match => Re.group method_match 1
            | None => None
            end
        end in
      match column_type with
      | Some (String _ _ as ty) => Some (Re.group column_match 1, ty)
      | _ => None
      end
  end.

(** The columns of the annotated lines, from the first line of the file to
    the last, each line read together with the one that follows it. *)
Fixpoint columns_in_order (lines : list string) : list column :=
  match lines with
  | line :: ((next :: _) as rest) =>
      (option_list (column_entry line next) ++ columns_in_order rest)%list
  | _ => []
  end.

(** Whether the last line read carries a column annotation. *)
Definition column_on_last_line (lines : list string) : bool :=
  match last lines with
  | Some line => bool_decide (is_Some (Re.search column_re line))
  | None => false
  end.

(** The header and the footer that surround the column lines of a
    createTable fragment. *)
Definition create_table_open (table_name : option string) : string :=
  "<createTable tableName=" ++ Py.dq ++ Py.str table_name ++ Py.dq ++ ">".

Definition drop_table (table_name : option string) : string :=
  "<dropTable tableName=" ++ Py.dq ++ Py.str table_name ++ Py.dq ++ "/>".

(** The program dispatches to one of the three single-column generators. *)
Definition single_column_mode (args : Namespace) : bool :=
  match add_column args with
  | Some _ => true
  | None =>
      Py.truthy (delete_column args)
      || bool_decide (is_Some (modify_column args))
  end.

(** ** Sample inputs *)

Module Sample.

Definition table_decl (name : string) : string :=
  "@Table(name = " ++ Py.dq ++ name ++ Py.dq ++ ")" ++ Py.nl.

Definition column_decl (name : string) : string :=
  "    @Column(name = " ++ Py.dq ++ name ++ Py.dq ++ ")" ++ Py.nl.

(** A table declaration, and one column on a private integer field. *)
Definition employee : string :=
  table_decl "Employee" ++ "public class Employee {" ++ Py.nl
  ++ column_decl "id" ++ "    private int id;" ++ Py.nl ++ "}" ++ Py.nl.

(** The same entity with a second column, on a getter. *)
Definition employee2 : string :=
  table_decl "Employee" ++ "public class Employee {" ++ Py.nl
  ++ column_decl "id" ++ "    private int id;" ++ Py.nl
  ++ column_decl "email" ++ "    public String getEmail() {" ++ Py.nl
  ++ "}" ++ Py.nl.

(** Two table declarations. *)
Definition renamed : string :=
  table_decl "Old" ++ table_decl "Employee"
  ++ column_decl "id" ++ "    private Long id;" ++ Py.nl ++ "}" ++ Py.nl.

(** A table declaration and a column annotation on the last line. *)
Definition trailing_column : string :=
  table_decl "Employee" ++ column_decl "id".

(** A table declaration whose quoted name is empty. *)
Definition empty_name : string :=
  table_decl EmptyString ++ column_decl "id" ++ "    private int id;" ++ Py.nl.

(** No table declaration at all. *)
Definition no_table : string :=
  "public class Employee {" ++ Py.nl
  ++ column_decl "id" ++ "    private int id;" ++ Py.nl ++ "}" ++ Py.nl.

(** A column whose following line holds a getter and a field. *)
Definition field_and_getter : string :=
  table_decl "Employee" ++ column_decl "id"
  ++ "    public int getId(); private Long id;" ++ Py.nl ++ "}" ++ Py.nl.

(** One readable file; every path names a file of its own and every path
    can be opened for writing. *)
Definition world (path text : string) : World :=
  {| files := {[ path := text ]}; stdout := [];
     resolve := fun p => p; open_error := fun _ => None |}.

(** The same, but no directory of [dir] exists: a path under it cannot be
    opened for writing. *)
Definition world_without (dir path text : string) : World :=
  {| files := {[ path := text ]}; stdout := [];
     resolve := fun p => p;
     open_error := fun p =>
       if Py.startswith (dir ++ "/") p then Some (FileNotFoundError p)
       else None |}.

(** The same as [world], but [link] is a second name of the file [path]. *)
Definition world_linked (link path text : string) : World :=
  {| files := {[ path := text ]}; stdout := [];
     resolve := fun p => if String.eqb p link then path else p;
     open_error := fun _ => None |}.

Definition create (path : string) : Namespace :=
  {| file := path; add_column := None; delete_column := None;
     modify_column := None |}.

Definition add (path name ty : string) : Namespace :=
  {| file := path; add_column := Some (name, ty); delete_column := None;
     modify_column := None |}.

Definition delete (path name : string) : Namespace :=
  {| file := path; add_column := None; delete_column := Some name;
     modify_column := None |}.

Definition modify (path name ty : string) : Namespace :=
  {| file := path; add_column := None; delete_column := None;
     modify_column := Some (name, ty) |}.

(** [-d] given with an empty column name, together with [-m]. *)
Definition delete_empty_and_modify (path name ty : string) : Namespace :=
  {| file := path; add_column := None; delete_column := Some EmptyString;
     modify_column := Some (name, ty) |}.

End Sample.

(** ** Notions used to state what the scanner returns *)

(** [all(p(c) for c in s)]. *)
Fixpoint all_chars (p : ascii -> bool) (s : string) : bool :=
  match s with
  | EmptyString => true
  | String c s' => p c && all_chars p s'
  end.

(** A pattern without capturing groups. *)
Fixpoint group_free (r : Re.regex) : bool :=
  match r with
  | Re.Cat r1 r2 | Re.Alt r1 r2 => group_free r1 && group_free r2
  | Re.Grp _ _ => false
  | _ => true
  end.

(** A column as the scanner can return it: the name is a [str] without a
    line feed, the type a non-empty run of word characters. *)
Definition well_formed_column (c : column) : Prop :=
  exists name : string,
    c.1 = Some name /\ all_chars Re.dot name = true
    /\ c.2 <> EmptyString /\ all_chars Re.word c.2 = true.

(** Each line but the last, paired with the line that follows it. *)
Fixpoint adjacent (lines : list string) : list (string * string) :=
  match lines with
  | line :: ((next :: _) as rest) => (line, next) :: adjacent rest
  | _ => []
  end.

(** The line after an annotation declares a field, or a public method
    without parameters. *)
Definition declares (next : string) : Prop :=
  is_Some (Re.search field_re next) \/ is_Some (Re.search method_re next).

(** An annotated line followed by a declaration. *)
Definition kept (pair : string * string) : Prop :=
  is_Some (Re.search column_re pair.1) /\ declares pair.2.

(** ** Groups of a match *)

Lemma star_greedy_continues {A : Type} (p : ascii -> bool) (s : string)
      (k : string -> option A) (x : A) :
  Re.star_greedy p s k = Some x -> exists s' : string, k s' = Some x.
Proof.
  induction s as [|c s IH]; cbn [Re.star_greedy]; intros H; [eauto|].
  destruct (p c); [|eauto].
  destruct (Re.star_greedy p s k) as [y|] eqn:E; cbn [Re.orelse] in H; [|eauto].
  injection H as ->. apply IH. reflexivity.
Qed.

Lemma star_lazy_continues {A : Type} (p : ascii -> bool) (s : string)
      (k : string -> option A) (x : A) :
  Re.star_lazy p s k = Some x -> exists s' : string, k s' = Some x.
Proof.
  induction s as [|c s IH]; cbn [Re.star_lazy]; intros H.
  - destruct (k EmptyString) eqn:E; cbn [Re.orelse] in H; [|discriminate H].
    injection H as ->. eauto.
  - destruct (k (String c s)) eqn:E; cbn [Re.orelse] in H.
    + injection H as ->. eauto.
    + destruct (p c); [apply IH; exact H|discriminate H].
Qed.

Lemma group_cons (n i : nat) (s : string) (g : Re.captures) :
  is_Some (Re.group ((i, s) :: g) n) <-> i = n \/ is_Some (Re.group g n).
Proof.
  cbn [Re.group]. destruct (Nat.eqb_spec i n) as [->|Hne].
  - split; eauto.
  - split; [auto|]. intros [H|H]; [congruence|exact H].
Qed.

Lemma rmatch_groups {A : Type} (r : Re.regex) :
  forall (s : string) (g : Re.captures)
         (k : string -> Re.captures -> option A) (x : A),
    Re.rmatch r s g k = Some x ->
    exists (s' : string) (g' : Re.captures),
      k s' g' = Some x
      /\ forall n : nat,
          n ∈ Re.groups_set r \/ is_Some (Re.group g n) -> is_Some (Re.group g' n).
Proof.
  induction r as [p|p|p|p|r1 IH1 r2 IH2|r1 IH1 r2 IH2|i r IH];
    intros s g k x H; cbn [Re.rmatch Re.groups_set] in *.
  - destruct (Re.drop_prefix p s) as [s'|]; [|discriminate H].
    exists s', g. split; [exact H|]. intros n [Hn|Hn]; [inversion Hn|exact Hn].
  - apply star_greedy_continues in H as [s' H].
    exists s', g. split; [exact H|]. intros n [Hn|Hn]; [inversion Hn|exact Hn].
  - destruct s as [|c s]; [discriminate H|]. destruct (p c); [|discriminate H].
    apply star_greedy_continues in H as [s' H].
    exists s', g. split; [exact H|]. intros n [Hn|Hn]; [inversion Hn|exact Hn].
  - apply star_lazy_continues in H as [s' H].
    exists s', g. split; [exact H|]. intros n [Hn|Hn]; [inversion Hn|exact Hn].
  - apply IH1 in H as (s1 & g1 & H & Hg1).
    apply IH2 in H as (s2 & g2 & H & Hg2).
    exists s2, g2. split; [exact H|]. intros n Hn. apply Hg2.
    rewrite elem_of_app in Hn. destruct Hn as [[Hn|Hn]|Hn]; auto.
  - destruct (Re.rmatch r1 s g k) as [y|] eqn:E; cbn [Re.orelse] in H.
    + injection H as ->. apply IH1 in E as (s1 & g1 & H & Hg1).
      exists s1, g1. split; [exact H|]. intros n [Hn|Hn]; apply Hg1; auto.
      apply list_elem_of_filter in Hn as [_ Hn]. auto.
    + apply IH2 in H as (s2 & g2 & H & Hg2).
      exists s2, g2. split; [exact H|]. intros n [Hn|Hn]; apply Hg2; auto.
      apply list_elem_of_filter in Hn as [Hn _]. auto.
  - apply IH in H as (s1 & g1 & H & Hg1).
    eexists s1, _. split; [exact H|]. intros n Hn. apply group_cons.
    rewrite elem_of_cons in Hn. destruct Hn as [[Hn|Hn]|Hn]; auto.
Qed.

Lemma search_groups (r : Re.regex) (s : string) (m : Re.captures) (n : nat) :
  Re.search r s = Some m -> n ∈ Re.groups_set r -> is_Some (Re.group m n).
Proof.
  intros H Hn. induction s as [|c s IH]; cbn [Re.search] in H.
  - destruct (Re.rmatch r EmptyString [] (fun _ g => Some g)) eqn:E;
      [|discriminate H].
    injection H as ->. apply rmatch_groups in E as (s' & g' & E & Hg).
    injection E as ->. auto.
  - destruct (Re.rmatch r (String c s) [] (fun _ g => Some g)) eqn:E;
      [|apply IH; exact H].
    injection H as ->. apply rmatch_groups in E as (s' & g' & E & Hg).
    injection E as ->. auto.
Qed.

(** A scanned column has a [str] name and a non-empty type. *)
Lemma column_entry_name (line next : string) (name : option string) (ty : string) :
  column_entry line next = Some (name, ty) -> is_Some name /\ ty <> EmptyString.
Proof.
  unfold column_entry. destruct (Re.search column_re line) as [m|] eqn:E;
    [|discriminate].
  match goal with |- match ?t with _ => _ end = _ -> _ => destruct t as [[|c s]|] end;
    try discriminate.
  intros [= <- <-]. split; [|discriminate].
  apply (search_groups column_re line m 1 E). vm_compute.
  repeat constructor.
Qed.

(** The table pattern and the column pattern set their group 1 on every
    match, so a captured name is always a [str]. *)
Lemma table_capture_is_str (line : string) (m : Re.captures) :
  Re.search table_re line = Some m -> is_Some (Re.group m 1).
Proof.
  intros H. apply (search_groups table_re line m 1 H). vm_compute.
  repeat constructor.
Qed.

(** The first sample of the specification: a table named Employee and a
    column id on a private integer field. *)
Example scan_employee :
  parse_java_entity {[ "Employee.java" := Sample.employee ]} "Employee.java"
  = inr (Some "Employee", [(Some "id", "int")]).
Proof. vm_compute. reflexivity. Qed.

(** ** Properties of the scanner's loop *)

Lemma bind_inr {A B} (a : A) (k : A -> result B) : bind (inr a) k = k a.
Proof. reflexivity. Qed.

Lemma getitem_next (pre : list string) (line next : string) (rest : list string) :
  getitem (pre ++ line :: next :: rest) (length pre + 1) = inr next.
Proof.
  unfold getitem.
  replace (pre ++ line :: next :: rest)%list with ((pre ++ [line]) ++ next :: rest)%list
    by (rewrite <- app_assoc; reflexivity).
  replace (length pre + 1) with (length (pre ++ [line])%list)
    by (rewrite length_app; reflexivity).
  rewrite list_lookup_middle; reflexivity.
Qed.

Lemma getitem_past_end (pre : list string) (line : string) :
  getitem (pre ++ [line]) (length pre + 1) = inl IndexError.
Proof.
  unfold getitem. rewrite lookup_ge_None_2; [reflexivity|].
  rewrite length_app. simpl. lia.
Qed.

Lemma scan_line_inner (pre : list string) (line next : string) (rest : list string)
      (table_name : option string) (columns : list column) :
  scan_line (pre ++ line :: next :: rest) (table_name, columns) (length pre) line
  = inr (table_update table_name line,
         (columns ++ option_list (column_entry line next))%list).
Proof.
  unfold scan_line, column_entry, table_update.
  destruct (Re.search column_re line) as [column_match|]; simpl.
  2: { rewrite app_nil_r. reflexivity. }
  assert (Hlt : Nat.ltb (length pre + 1) (length (pre ++ line :: next :: rest)%list) = true).
  { apply Nat.ltb_lt. rewrite length_app. simpl. lia. }
  rewrite Hlt, getitem_next. simpl.
  destruct (Re.search field_re next) as [field_match|]; simpl.
  - destruct (Re.group field_match 2) as [[|a ty]|]; simpl;
      rewrite ?app_nil_r; try reflexivity.
    destruct (Re.search method_re next) as [method_match|]; simpl;
      [destruct (Re.group method_match 1) as [[|b ty]|]|]; simpl;
      rewrite ?app_nil_r; reflexivity.
  - destruct (Re.search method_re next) as [method_match|]; simpl;
      [destruct (Re.group method_match 1) as [[|b ty]|]|]; simpl;
      rewrite ?app_nil_r; reflexivity.
Qed.

Lemma scan_line_last (pre : list string) (line : string)
      (table_name : option string) (columns : list column) :
  scan_line (pre ++ [line]) (table_name, columns) (length pre) line
  = if bool_decide (is_Some (Re.search column_re line))
    then inl IndexError
    else inr (table_update table_name line, columns).
Proof.
  unfold scan_line, table_update.
  destruct (Re.search column_re line) as [column_match|]; simpl.
  2: { reflexivity. }
  assert (Hlt : Nat.ltb (length pre + 1) (length (pre ++ [line])%list) = false).
  { apply Nat.ltb_ge. rewrite length_app. simpl. lia. }
  rewrite Hlt. simpl. rewrite getitem_past_end. reflexivity.
Qed.

Lemma enumerate_cons (n : nat) (line : string) (rest : list string) :
  combine (seq n (length (line :: rest))) (line :: rest)
  = (n, line) :: combine (seq (S n) (length rest)) rest.
Proof. reflexivity. Qed.

Lemma scan_loop (lines pre rest : list string)
      (table_name : option string) (columns : list column) :
  lines = (pre ++ rest)%list ->
  fold_left (fun acc '(i, line) => let* st := acc in scan_line lines st i line)
            (combine (seq (length pre) (length rest)) rest)
            (inr (table_name, columns))
  = if column_on_last_line rest
    then inl IndexError
    else inr (fold_left table_update rest table_name,
              (columns ++ columns_in_order rest)%list).
Proof.
  revert pre table_name columns.
  induction rest as [|line rest IH]; intros pre table_name columns ->.
  - simpl. rewrite app_nil_r. reflexivity.
  - destruct rest as [|next rest].
    + rewrite enumerate_cons. cbn [fold_left length seq combine].
      rewrite bind_inr, scan_line_last.
      unfold column_on_last_line. cbn [last fold_left columns_in_order].
      rewrite app_nil_r. reflexivity.
    + rewrite enumerate_cons. cbn [fold_left]. rewrite bind_inr, scan_line_inner.
      replace (S (length pre)) with (length (pre ++ [line])%list)
        by (rewrite length_app; simpl; lia).
      rewrite (IH (pre ++ [line])%list) by (rewrite <- app_assoc; reflexivity).
      cbn [columns_in_order fold_left]. rewrite <- app_assoc.
      reflexivity.
Qed.

Lemma scan_eq (lines : list string) :
  scan lines
  = if column_on_last_line lines
    then inl IndexError
    else inr (fold_left table_update lines None, columns_in_order lines).
Proof. unfold scan, enumerate. apply (scan_loop lines [] lines). reflexivity. Qed.

Lemma table_update_last (l1 : list string) (line : string) (l2 : list string)
      (m : Re.captures) (table_name : option string) :
  Re.search table_re line = Some m ->
  Forall (fun l => Re.search table_re l = None) l2 ->
  fold_left table_update (l1 ++ line :: l2) table_name = Re.group m 1.
Proof.
  intros Hm Hl2. rewrite fold_left_app. simpl.
  unfold table_update at 2. rewrite Hm.
  induction Hl2 as [|l l2 Hl _ IH]; simpl; [reflexivity|].
  unfold table_update at 2. rewrite Hl. exact IH.
Qed.

(** The scanner raises exactly when the last line read carries a column
    annotation; otherwise it returns the table name left by the last
    assignment and the columns in the order of the lines. *)
Lemma parse_java_entity_eq (fs : gmap string string) (path text : string) :
  fs !! path = Some text ->
  parse_java_entity fs path
  = if column_on_last_line (Py.readlines text)
    then inl IndexError
    else inr (fold_left table_update (Py.readlines text) None,
              columns_in_order (Py.readlines text)).
Proof. intros Hfile. unfold parse_java_entity. rewrite Hfile. apply scan_eq. Qed.

(** C1: a column annotation on the last line of the file is not dropped:
    the second look at the following line is not guarded, and
    [parse_java_entity] raises [IndexError]; [main] catches it, prints its
    message and writes nothing. *)
Theorem parse_java_entity_trailing_column_raises :
  parse_java_entity {[ "Employee.java" := Sample.trailing_column ]} "Employee.java"
  = inl IndexError
  /\ main (Sample.create "Employee.java")
          (Sample.world "Employee.java" Sample.trailing_column)
     = print "Error: list index out of range"
             (Sample.world "Employee.java" Sample.trailing_column).
Proof. split; vm_compute; reflexivity. Qed.

(** C8: when the last line of the file that matches the table pattern is
    [line], and the scan is not ended by an exception, [parse_java_entity]
    returns the name captured on [line], whatever the lines before it
    declared, and the columns in the order of their lines. *)
Theorem parse_java_entity_last_table_wins
        (fs : gmap string string) (path text : string)
        (l1 : list string) (line : string) (l2 : list string) (m : Re.captures) :
  fs !! path = Some text ->
  Py.readlines text = (l1 ++ line :: l2)%list ->
  Re.search table_re line = Some m ->
  Forall (fun l => Re.search table_re l = None) l2 ->
  column_on_last_line (Py.readlines text) = false ->
  parse_java_entity fs path
  = inr (Re.group m 1, columns_in_order (Py.readlines text)).
Proof.
  intros Hfile Hlines Hm Hl2 Hlast.
  rewrite (parse_java_entity_eq fs path text Hfile), Hlast.
  rewrite Hlines at 1. rewrite (table_update_last l1 line l2 m None Hm Hl2).
  reflexivity.
Qed.

Lemma parse_java_entity_last_table_wins_witness :
  parse_java_entity {[ "Employee.java" := Sample.renamed ]} "Employee.java"
  = inr (Some "Employee", [(Some "id", "Long")]).
Proof.
  apply (parse_java_entity_last_table_wins
           {[ "Employee.java" := Sample.renamed ]} "Employee.java" Sample.renamed
           [Sample.table_decl "Old"] (Sample.table_decl "Employee")
           [Sample.column_decl "id"; "    private Long id;" ++ Py.nl; "}" ++ Py.nl]
           [(1, "Employee")]).
  - reflexivity.
  - vm_compute. reflexivity.
  - vm_compute. reflexivity.
  - repeat constructor.
  - vm_compute. reflexivity.
Defined.

(** ** Properties of the type mapper *)

Lemma type_mapping_unknown (java_type : string) :
  java_type ∉ ["String"; "int"; "Integer"; "long"; "Long"; "boolean";
               "Boolean"; "Date"; "BigDecimal"] ->
  type_mapping !! java_type = None.
Proof.
  intros Hnot. unfold type_mapping.
  apply not_elem_of_list_to_map_1. exact Hnot.
Qed.

(** C5: the mapper is a function of its argument alone; every string that
    is not exactly one of the nine keys is mapped to VARCHAR(255), among
    them UUID and the lower-case string, which no key matches; long is
    mapped to BIGINT and Boolean to BOOLEAN. *)
Theorem map_java_type_to_db_type_total :
  (forall java_type : string,
      java_type ∉ ["String"; "int"; "Integer"; "long"; "Long"; "boolean";
                   "Boolean"; "Date"; "BigDecimal"] ->
      map_java_type_to_db_type java_type = "VARCHAR(255)")
  /\ map_java_type_to_db_type "UUID" = "VARCHAR(255)"
  /\ map_java_type_to_db_type "long" = "BIGINT"
  /\ map_java_type_to_db_type "Boolean" = "BOOLEAN"
  /\ type_mapping !! "string" = None
  /\ map_java_type_to_db_type "string" = "VARCHAR(255)"
  /\ type_mapping !! "String" = Some "VARCHAR(255)".
Proof.
  split.
  - intros java_type Hnot. unfold map_java_type_to_db_type.
    rewrite (type_mapping_unknown java_type Hnot). reflexivity.
  - repeat split; vm_compute; reflexivity.
Qed.

Lemma map_java_type_to_db_type_total_witness :
  map_java_type_to_db_type "uuid" = "VARCHAR(255)".
Proof.
  apply (proj1 map_java_type_to_db_type_total "uuid").
  rewrite !elem_of_cons, elem_of_nil. intros H.
  repeat (destruct H as [H|H]; [discriminate H|]). exact H.
Defined.

(** ** Properties of the change generators *)

(** C9: the rollback of add-column is the forward fragment of
    delete-column for every column type, and the rollback of delete-column
    is the forward fragment of add-column for every type that the mapper
    sends to VARCHAR(255), String among them. *)
Theorem add_delete_inverse (table_name : option string) (column_name : string) :
  (forall column_type : string,
      snd (generate_add_column_query table_name column_name column_type)
      = fst (generate_delete_column_query table_name column_name))
  /\ (forall column_type : string,
         map_java_type_to_db_type column_type = "VARCHAR(255)" ->
         snd (generate_delete_column_query table_name column_name)
         = fst (generate_add_column_query table_name column_name column_type))
  /\ snd (generate_delete_column_query table_name column_name)
     = fst (generate_add_column_query table_name column_name "String").
Proof.
  split; [|split].
  - intros column_type. reflexivity.
  - intros column_type Hty. unfold generate_add_column_query.
    cbn [fst snd generate_delete_column_query]. rewrite Hty. reflexivity.
  - reflexivity.
Qed.

Lemma add_delete_inverse_witness :
  snd (generate_delete_column_query (Some "Employee") "email")
  = fst (generate_add_column_query (Some "Employee") "email" "UUID").
Proof.
  apply (proj1 (proj2 (add_delete_inverse (Some "Employee") "email")) "UUID").
  vm_compute. reflexivity.
Defined.

(** ** Properties of the output path *)

Lemma startswith_app (p s t : string) :
  Py.startswith p s = true -> Py.startswith p (s ++ t) = true.
Proof.
  revert s. induction p as [|a p IH]; intros s; [reflexivity|].
  destruct s as [|b s]; simpl; [discriminate|].
  destruct (Ascii.eqb a b); [apply IH|discriminate].
Qed.

Lemma startswith_cons (a : ascii) (p : string) (b : ascii) (s : string) :
  Py.startswith (String a p) (String b s)
  = if Ascii.eqb a b then Py.startswith p s else false.
Proof. reflexivity. Qed.

Lemma append_cons (c : ascii) (s t : string) :
  String c s ++ t = String c (s ++ t).
Proof. reflexivity. Qed.

(** One character of [stem] against one character of the pattern. *)
Ltac boundary_step stem H E :=
  let c := fresh "c" in
  destruct stem as [|c stem];
  [ vm_compute in E; congruence
  | rewrite append_cons in E; rewrite startswith_cons in H, E;
    destruct (Ascii.eqb _ c); [|congruence] ].

(** An occurrence of [.java] that starts inside [stem] and runs into a
    [.java] that follows [stem] would put the dot of the latter on a letter
    of the former. *)
Lemma startswith_java_boundary (c : ascii) (stem rest : string) :
  Py.startswith ".java" (String c stem) = false ->
  Py.startswith ".java" (String c stem ++ ".java" ++ rest) = false.
Proof.
  intros H.
  destruct (Py.startswith ".java" (String c stem ++ ".java" ++ rest)) eqn:E;
    [|reflexivity].
  exfalso. rewrite append_cons in E. rewrite startswith_cons in H, E.
  destruct (Ascii.eqb "." c); [|congruence].
  do 4 boundary_step stem H E.
  vm_compute in H. congruence.
Qed.

Lemma output_file_app (stem rest : string) :
  Py.contains ".java" stem = false ->
  output_file (stem ++ ".java" ++ rest)
  = stem ++ "_liquibase_query.xml" ++ output_file rest.
Proof.
  unfold output_file, Py.replace.
  induction stem as [|c stem IH]; intros Hno.
  - reflexivity.
  - cbn [Py.contains] in Hno. apply orb_false_elim in Hno as [Hhere Hlater].
    change (String c stem ++ ".java" ++ rest)
      with (String c (stem ++ ".java" ++ rest)).
    cbn [Py.replace_from].
    change (String c (stem ++ ".java" ++ rest))
      with (String c stem ++ ".java" ++ rest).
    rewrite (startswith_java_boundary c stem rest Hhere).
    rewrite (IH Hlater). reflexivity.
Qed.

Lemma output_file_unchanged (path : string) :
  Py.contains ".java" path = false -> output_file path = path.
Proof.
  unfold output_file, Py.replace.
  induction path as [|c path IH]; intros Hno; [reflexivity|].
  cbn [Py.contains] in Hno. apply orb_false_elim in Hno as [Hhere Hlater].
  cbn [Py.replace_from]. rewrite Hhere, (IH Hlater). reflexivity.
Qed.

(** C2: [str.replace] rewrites every [.java] of the path, not the ending
    alone: for [app.java/Employee.java] the directory name is rewritten
    too, so the output path is not [app.java/Employee_liquibase_query.xml];
    where the rewritten directory does not exist the open fails, and
    [main] prints the error and writes nothing. *)
Theorem output_file_rewrites_directory_name :
  output_file "app.java/Employee.java"
  = "app_liquibase_query.xml/Employee_liquibase_query.xml"
  /\ output_file "app.java/Employee.java"
     <> "app.java/Employee_liquibase_query.xml"
  /\ main (Sample.create "app.java/Employee.java")
          (Sample.world_without "app_liquibase_query.xml"
             "app.java/Employee.java" Sample.employee)
     = print ("Error: [Errno 2] No such file or directory: "
              ++ "'app_liquibase_query.xml/Employee_liquibase_query.xml'")
         (Sample.world_without "app_liquibase_query.xml"
            "app.java/Employee.java" Sample.employee).
Proof.
  split; [vm_compute; reflexivity|]. split.
  - vm_compute. discriminate.
  - vm_compute. reflexivity.
Qed.

(** ** Properties of the driver *)

(** Once the scanner has returned, [main] is the choice of a generator
    followed by the writing of the change log, or the parse-failure line;
    an open that fails is reported in place of the writing. *)
Lemma main_scanned (args : Namespace) (w : World)
      (table_name : option string) (columns : list column) :
  parse_java_entity (files w) (resolve w (file args))
  = inr (table_name, columns) ->
  main args w
  = match generate args table_name columns with
    | Some generated =>
        match open_error w (output_file (file args)) with
        | Some e => print ("Error: " ++ exception_str e) w
        | None => changelog_written args generated w
        end
    | None => print "Error: Could not parse table name or columns." w
    end.
Proof.
  intros Hscan. unfold main, run.
  assert (Hfile : is_Some (files w !! resolve w (file args))).
  { unfold parse_java_entity in Hscan.
    destruct (files w !! resolve w (file args)); [eauto|discriminate Hscan]. }
  rewrite (bool_decide_eq_true_2 _ Hfile), Hscan. cbn [negb bind].
  destruct (generate args table_name columns) as [[query rollback_query]|];
    [|reflexivity].
  unfold write_changelog, write_file, changelog_written.
  destruct (open_error w (output_file (file args))); reflexivity.
Qed.

Lemma main_written (args : Namespace) (w : World)
      (table_name : option string) (columns : list column)
      (generated : string * string) :
  parse_java_entity (files w) (resolve w (file args))
  = inr (table_name, columns) ->
  generate args table_name columns = Some generated ->
  open_error w (output_file (file args)) = None ->
  main args w = changelog_written args generated w.
Proof.
  intros Hscan Hgen Hopen.
  rewrite (main_scanned args w table_name columns Hscan), Hgen, Hopen.
  reflexivity.
Qed.

Lemma column_lines_appended (columns : list column) (xml_lines : list string) :
  fold_left (fun xml_lines c => (xml_lines ++ [column_line c])%list)
            columns xml_lines
  = (xml_lines ++ map column_line columns)%list.
Proof.
  revert xml_lines. induction columns as [|c columns IH]; intros xml_lines.
  - cbn [fold_left map]. rewrite app_nil_r. reflexivity.
  - cbn [fold_left map]. rewrite IH, <- app_assoc. reflexivity.
Qed.

Lemma generate_create_table_query_eq (table_name : option string)
      (columns : list column) :
  generate_create_table_query table_name columns
  = (Py.join Py.nl
       (create_table_open table_name
          :: map column_line columns ++ ["</createTable>"])%list,
     drop_table table_name).
Proof.
  unfold generate_create_table_query. rewrite column_lines_appended.
  reflexivity.
Qed.

Lemma truthy_false (v : option string) :
  Py.truthy v = false <-> v = None \/ v = Some EmptyString.
Proof.
  destruct v as [[|c s]|]; cbn [Py.truthy]; split; intros H;
    try reflexivity; try discriminate H; auto.
  destruct H as [H|H]; discriminate H.
Qed.

Lemma generate_add (args : Namespace) (table_name : option string)
      (columns : list column) (column_name column_type : string) :
  add_column args = Some (column_name, column_type) ->
  generate args table_name columns
  = Some (generate_add_column_query table_name column_name column_type).
Proof. intros Hadd. unfold generate. rewrite Hadd. reflexivity. Qed.

Lemma generate_delete (args : Namespace) (table_name : option string)
      (columns : list column) (column_name : string) :
  add_column args = None ->
  delete_column args = Some column_name ->
  column_name <> EmptyString ->
  generate args table_name columns
  = Some (generate_delete_column_query table_name column_name).
Proof.
  intros Hadd Hdel Hname. unfold generate. rewrite Hadd, Hdel.
  destruct column_name; [congruence|reflexivity].
Qed.

Lemma generate_modify (args : Namespace) (table_name : option string)
      (columns : list column) (column_name column_type : string) :
  add_column args = None ->
  Py.truthy (delete_column args) = false ->
  modify_column args = Some (column_name, column_type) ->
  generate args table_name columns
  = Some (generate_modify_column_query table_name column_name column_type).
Proof.
  intros Hadd Hdel Hmod. unfold generate. rewrite Hadd, Hmod.
  destruct (delete_column args) as [[|c s]|]; [reflexivity|discriminate Hdel|reflexivity].
Qed.

Lemma generate_create (args : Namespace) (table_name : option string)
      (columns : list column) :
  add_column args = None ->
  Py.truthy (delete_column args) = false ->
  modify_column args = None ->
  generate args table_name columns
  = if Py.truthy table_name && Py.truthy_list columns
    then Some (generate_create_table_query table_name columns)
    else None.
Proof.
  intros Hadd Hdel Hmod. unfold generate. rewrite Hadd, Hmod.
  destruct (delete_column args) as [[|c s]|]; [|discriminate Hdel|];
    destruct (Py.truthy table_name), (Py.truthy_list columns); reflexivity.
Qed.

Lemma generate_single_column (args1 args2 : Namespace)
      (table_name : option string) (columns1 columns2 : list column) :
  add_column args1 = add_column args2 ->
  delete_column args1 = delete_column args2 ->
  modify_column args1 = modify_column args2 ->
  single_column_mode args1 = true ->
  generate args1 table_name columns1 = generate args2 table_name columns2
  /\ is_Some (generate args1 table_name columns1).
Proof.
  intros Hadd Hdel Hmod Hmode. unfold generate, single_column_mode in *.
  rewrite <- Hadd, <- Hdel, <- Hmod.
  destruct (add_column args1) as [[column_name column_type]|]; [eauto|].
  destruct (delete_column args1) as [[|c s]|]; cbn [Py.truthy orb] in Hmode;
    try (split; [reflexivity|eauto]);
    destruct (modify_column args1) as [[column_name column_type]|];
    try (split; [reflexivity|eauto]);
    rewrite bool_decide_eq_false_2 in Hmode
      by (intros [x Hx]; discriminate Hx);
    discriminate Hmode.
Qed.

Lemma changelog_written_lookup (args : Namespace)
      (generated : string * string) (w : World) :
  files (changelog_written args generated w)
    !! resolve w (output_file (file args))
  = Some (document (fst generated) (snd generated)).
Proof.
  unfold changelog_written, print, store. cbn [files].
  apply lookup_insert_eq.
Qed.

(** C4: the forward fragment of delete-column drops the column and the
    rollback adds it back as VARCHAR(255), for every table name and column
    name; no type is an input of the function. *)
Theorem generate_delete_column_query_varchar
        (table_name : option string) (column_name : string) :
  generate_delete_column_query table_name column_name
  = ("<dropColumn tableName=" ++ Py.dq ++ Py.str table_name ++ Py.dq
     ++ " columnName=" ++ Py.dq ++ column_name ++ Py.dq ++ "/>",
     "<addColumn tableName=" ++ Py.dq ++ Py.str table_name ++ Py.dq ++ ">" ++ Py.nl
     ++ "    <column name=" ++ Py.dq ++ column_name ++ Py.dq
     ++ " type=" ++ Py.dq ++ "VARCHAR(255)" ++ Py.dq ++ "/>" ++ Py.nl
     ++ "</addColumn>").
Proof. unfold generate_delete_column_query. reflexivity. Qed.

(** C3, as the code has it: with no directive given and the scanner
    returned, a table name that is absent or empty, or an empty column
    list, makes [main] print the parse-failure line and write no file;
    otherwise, when the output path can be opened for writing, [main]
    writes a createTable fragment with one line for every scanned column,
    in order, with its mapped type, and a rollback that drops the table. *)
Theorem create_table_mode (args : Namespace) (w : World)
        (table_name : option string) (columns : list column) :
  add_column args = None ->
  delete_column args = None ->
  modify_column args = None ->
  parse_java_entity (files w) (resolve w (file args))
  = inr (table_name, columns) ->
  (Py.truthy table_name = false \/ columns = [] ->
   main args w = print "Error: Could not parse table name or columns." w)
  /\ (Py.truthy table_name = true -> columns <> [] ->
      open_error w (output_file (file args)) = None ->
      main args w
      = print ("Liquibase XML created successfully: " ++ output_file (file args))
          (store (output_file (file args))
             (document
                (Py.join Py.nl
                   (create_table_open table_name
                      :: map column_line columns ++ ["</createTable>"])%list)
                (drop_table table_name))
             w)).
Proof.
  intros Hadd Hdel Hmod Hscan.
  pose proof (generate_create args table_name columns Hadd) as Hgen.
  rewrite Hdel in Hgen. specialize (Hgen eq_refl Hmod).
  split.
  - intros Hmissing.
    rewrite (main_scanned args w table_name columns Hscan), Hgen.
    destruct Hmissing as [Hname|Hcols].
    + rewrite Hname. reflexivity.
    + rewrite Hcols, andb_false_r. reflexivity.
  - intros Hname Hcols Hopen.
    destruct columns as [|c columns]; [congruence|].
    rewrite Hname in Hgen. cbn [Py.truthy_list andb] in Hgen.
    rewrite (main_written args w table_name (c :: columns) _ Hscan Hgen Hopen).
    rewrite generate_create_table_query_eq. reflexivity.
Qed.

Lemma create_table_mode_witness :
  main (Sample.create "Employee.java")
       (Sample.world "Employee.java" Sample.employee)
  = print "Liquibase XML created successfully: Employee_liquibase_query.xml"
      (store "Employee_liquibase_query.xml"
         (document
            (Py.join Py.nl
               ["<createTable tableName=" ++ Py.dq ++ "Employee" ++ Py.dq ++ ">";
                "    <column name=" ++ Py.dq ++ "id" ++ Py.dq
                ++ " type=" ++ Py.dq ++ "INTEGER" ++ Py.dq ++ "/>";
                "</createTable>"])
            ("<dropTable tableName=" ++ Py.dq ++ "Employee" ++ Py.dq ++ "/>"))
         (Sample.world "Employee.java" Sample.employee)).
Proof.
  refine (proj2 (create_table_mode (Sample.create "Employee.java")
                   (Sample.world "Employee.java" Sample.employee)
                   (Some "Employee") [(Some "id", "int")] _ _ _ _) _ _ _).
  - reflexivity.
  - reflexivity.
  - reflexivity.
  - vm_compute. reflexivity.
  - reflexivity.
  - discriminate.
  - reflexivity.
Defined.

(** C3, as stated, fails twice. When the table declaration carries an
    empty name, the name is not absent and a column was scanned, yet
    nothing is written. And with a name that is not empty, nothing is
    written either when the output path cannot be opened. *)
Lemma create_table_empty_name_counterexample :
  ~ (forall (args : Namespace) (w : World)
            (table_name : option string) (columns : list column),
        add_column args = None ->
        delete_column args = None ->
        modify_column args = None ->
        parse_java_entity (files w) (resolve w (file args))
        = inr (table_name, columns) ->
        table_name <> None -> columns <> [] ->
        files (main args w) !! resolve w (output_file (file args))
        = Some (document (fst (generate_create_table_query table_name columns))
                         (snd (generate_create_table_query table_name columns))))
  /\ ~ (forall (args : Namespace) (w : World)
               (table_name : option string) (columns : list column),
           add_column args = None ->
           delete_column args = None ->
           modify_column args = None ->
           parse_java_entity (files w) (resolve w (file args))
           = inr (table_name, columns) ->
           Py.truthy table_name = true -> columns <> [] ->
           files (main args w) !! resolve w (output_file (file args))
           = Some (document (fst (generate_create_table_query table_name columns))
                            (snd (generate_create_table_query table_name columns)))).
Proof.
  split; intros H.
  - specialize (H (Sample.create "Employee.java")
                  (Sample.world "Employee.java" Sample.empty_name)
                  (Some EmptyString) [(Some "id", "int")]
                  eq_refl eq_refl eq_refl).
    assert (Hscan : parse_java_entity
                      (files (Sample.world "Employee.java" Sample.empty_name))
                      "Employee.java"
                    = inr (Some EmptyString, [(Some "id", "int")]))
      by (vm_compute; reflexivity).
    specialize (H Hscan ltac:(discriminate) ltac:(discriminate)).
    vm_compute in H. discriminate H.
  - specialize (H (Sample.create "app.java/Employee.java")
                  (Sample.world_without "app_liquibase_query.xml"
                     "app.java/Employee.java" Sample.employee)
                  (Some "Employee") [(Some "id", "int")]
                  eq_refl eq_refl eq_refl).
    assert (Hscan : parse_java_entity
                      (files (Sample.world_without "app_liquibase_query.xml"
                                "app.java/Employee.java" Sample.employee))
                      "app.java/Employee.java"
                    = inr (Some "Employee", [(Some "id", "int")]))
      by (vm_compute; reflexivity).
    specialize (H Hscan eq_refl ltac:(discriminate)).
    vm_compute in H. discriminate H.
Qed.

(** C6, as the code has it: no conflict between directives is reported
    and one generator is chosen by a fixed precedence. Add-column is
    chosen whenever it is given; delete-column when add-column is not
    given and its column name is not empty; modify-column when neither of
    these holds and it is given; create-table (with its test of the table
    name and the columns) when none of the three holds. A delete-column
    directive with an empty column name counts as not given. *)
Theorem directive_precedence (args : Namespace)
        (table_name : option string) (columns : list column) :
  (forall column_name column_type : string,
      add_column args = Some (column_name, column_type) ->
      generate args table_name columns
      = Some (generate_add_column_query table_name column_name column_type))
  /\ (forall column_name : string,
         add_column args = None ->
         delete_column args = Some column_name ->
         column_name <> EmptyString ->
         generate args table_name columns
         = Some (generate_delete_column_query table_name column_name))
  /\ (forall column_name column_type : string,
         add_column args = None ->
         delete_column args = None \/ delete_column args = Some EmptyString ->
         modify_column args = Some (column_name, column_type) ->
         generate args table_name columns
         = Some (generate_modify_column_query table_name column_name column_type))
  /\ (add_column args = None ->
      delete_column args = None \/ delete_column args = Some EmptyString ->
      modify_column args = None ->
      generate args table_name columns
      = if Py.truthy table_name && Py.truthy_list columns
        then Some (generate_create_table_query table_name columns)
        else None).
Proof.
  repeat split.
  - intros column_name column_type. apply generate_add.
  - intros column_name. apply generate_delete.
  - intros column_name column_type Hadd Hdel Hmod.
    apply truthy_false in Hdel. apply generate_modify; assumption.
  - intros Hadd Hdel Hmod. apply truthy_false in Hdel.
    apply generate_create; assumption.
Qed.

Lemma directive_precedence_witness :
  generate {| file := "Employee.java"; add_column := Some ("email", "String");
              delete_column := Some "id"; modify_column := Some ("id", "long") |}
           (Some "Employee") [(Some "id", "int")]
  = Some (generate_add_column_query (Some "Employee") "email" "String").
Proof.
  apply (proj1 (directive_precedence
                  {| file := "Employee.java";
                     add_column := Some ("email", "String");
                     delete_column := Some "id";
                     modify_column := Some ("id", "long") |}
                  (Some "Employee") [(Some "id", "int")])
               "email" "String").
  reflexivity.
Defined.

(** C6, as stated, fails when delete-column is given with an empty column
    name together with modify-column: the modify-column generator is
    chosen, not the delete-column one. *)
Lemma delete_empty_name_counterexample :
  ~ (forall (args : Namespace) (table_name : option string)
            (columns : list column) (column_name : string),
        add_column args = None ->
        delete_column args = Some column_name ->
        generate args table_name columns
        = Some (generate_delete_column_query table_name column_name)).
Proof.
  intros H.
  specialize (H (Sample.delete_empty_and_modify "Employee.java" "id" "long")
                (Some "Employee") [(Some "id", "int")] EmptyString
                eq_refl eq_refl).
  vm_compute in H. discriminate H.
Qed.

(** C7: in the three single-column modes the column list of the scan has
    no influence: two runs with the same directives on files whose scans
    return the same table name, with any column lists, choose the same
    fragments, and when each can open its output path they write the same
    document. *)
Theorem single_column_modes_ignore_columns
        (args1 args2 : Namespace) (w1 w2 : World)
        (table_name : option string) (columns1 columns2 : list column) :
  add_column args1 = add_column args2 ->
  delete_column args1 = delete_column args2 ->
  modify_column args1 = modify_column args2 ->
  single_column_mode args1 = true ->
  parse_java_entity (files w1) (resolve w1 (file args1))
  = inr (table_name, columns1) ->
  parse_java_entity (files w2) (resolve w2 (file args2))
  = inr (table_name, columns2) ->
  generate args1 table_name columns1 = generate args2 table_name columns2
  /\ (open_error w1 (output_file (file args1)) = None ->
      open_error w2 (output_file (file args2)) = None ->
      exists doc : string,
        files (main args1 w1) !! resolve w1 (output_file (file args1))
        = Some doc
        /\ files (main args2 w2) !! resolve w2 (output_file (file args2))
           = Some doc).
Proof.
  intros Hadd Hdel Hmod Hmode Hscan1 Hscan2.
  destruct (generate_single_column args1 args2 table_name columns1 columns2
              Hadd Hdel Hmod Hmode) as [Hsame [generated Hgen]].
  split; [exact Hsame|]. intros Hopen1 Hopen2.
  rewrite (main_written args1 w1 table_name columns1 generated
             Hscan1 Hgen Hopen1).
  rewrite Hsame in Hgen.
  rewrite (main_written args2 w2 table_name columns2 generated
             Hscan2 Hgen Hopen2).
  exists (document (fst generated) (snd generated)).
  split; apply changelog_written_lookup.
Qed.

Lemma single_column_modes_ignore_columns_witness :
  generate (Sample.add "Employee.java" "age" "Integer")
           (Some "Employee") [(Some "id", "int")]
  = generate (Sample.add "Staff.java" "age" "Integer")
             (Some "Employee") [(Some "id", "int"); (Some "email", "String")]
  /\ (@None exception = None ->
      @None exception = None ->
      exists doc : string,
        files (main (Sample.add "Employee.java" "age" "Integer")
                    (Sample.world "Employee.java" Sample.employee))
          !! "Employee_liquibase_query.xml" = Some doc
        /\ files (main (Sample.add "Staff.java" "age" "Integer")
                       (Sample.world "Staff.java" Sample.employee2))
             !! "Staff_liquibase_query.xml" = Some doc).
Proof.
  refine (single_column_modes_ignore_columns
            (Sample.add "Employee.java" "age" "Integer")
            (Sample.add "Staff.java" "age" "Integer")
            (Sample.world "Employee.java" Sample.employee)
            (Sample.world "Staff.java" Sample.employee2)
            (Some "Employee") [(Some "id", "int")]
            [(Some "id", "int"); (Some "email", "String")] _ _ _ _ _ _).
  - reflexivity.
  - reflexivity.
  - reflexivity.
  - reflexivity.
  - vm_compute. reflexivity.
  - vm_compute. reflexivity.
Defined.

(** C10, as the code has it: when the scanner found no table declaration
    and the program is in a single-column mode (add-column given; or
    delete-column given with a non-empty column name; or modify-column
    given), and the output path can be opened for writing, no error is
    reported: the change log is written and the success line printed, and
    the value of the tableName attribute of both fragments is the text
    None. *)
Theorem absent_table_name_prints_None (args : Namespace) (w : World)
        (columns : list column) :
  parse_java_entity (files w) (resolve w (file args)) = inr (None, columns) ->
  open_error w (output_file (file args)) = None ->
  (forall column_name column_type : string,
      add_column args = Some (column_name, column_type) ->
      main args w
      = changelog_written args
          ("<addColumn tableName=" ++ Py.dq ++ "None" ++ Py.dq ++ ">" ++ Py.nl
           ++ "    <column name=" ++ Py.dq ++ column_name ++ Py.dq
           ++ " type=" ++ Py.dq ++ map_java_type_to_db_type column_type
           ++ Py.dq ++ "/>" ++ Py.nl ++ "</addColumn>",
           "<dropColumn tableName=" ++ Py.dq ++ "None" ++ Py.dq
           ++ " columnName=" ++ Py.dq ++ column_name ++ Py.dq ++ "/>") w)
  /\ (forall column_name : string,
         add_column args = None ->
         delete_column args = Some column_name ->
         column_name <> EmptyString ->
         main args w
         = changelog_written args
             ("<dropColumn tableName=" ++ Py.dq ++ "None" ++ Py.dq
              ++ " columnName=" ++ Py.dq ++ column_name ++ Py.dq ++ "/>",
              "<addColumn tableName=" ++ Py.dq ++ "None" ++ Py.dq ++ ">" ++ Py.nl
              ++ "    <column name=" ++ Py.dq ++ column_name ++ Py.dq
              ++ " type=" ++ Py.dq ++ "VARCHAR(255)" ++ Py.dq ++ "/>" ++ Py.nl
              ++ "</addColumn>") w)
  /\ (forall column_name column_type : string,
         add_column args = None ->
         delete_column args = None \/ delete_column args = Some EmptyString ->
         modify_column args = Some (column_name, column_type) ->
         main args w
         = changelog_written args
             ("<modifyDataType tableName=" ++ Py.dq ++ "None" ++ Py.dq
              ++ " columnName=" ++ Py.dq ++ column_name ++ Py.dq
              ++ " newDataType=" ++ Py.dq ++ map_java_type_to_db_type column_type
              ++ Py.dq ++ "/>",
              "<modifyDataType tableName=" ++ Py.dq ++ "None" ++ Py.dq
              ++ " columnName=" ++ Py.dq ++ column_name ++ Py.dq
              ++ " newDataType=" ++ Py.dq ++ "VARCHAR(255)" ++ Py.dq ++ "/>") w).
Proof.
  intros Hscan Hopen. repeat split.
  - intros column_name column_type Hadd.
    apply (main_written args w None columns _ Hscan); [|exact Hopen].
    rewrite (generate_add args None columns _ _ Hadd). reflexivity.
  - intros column_name Hadd Hdel Hname.
    apply (main_written args w None columns _ Hscan); [|exact Hopen].
    rewrite (generate_delete args None columns _ Hadd Hdel Hname).
    reflexivity.
  - intros column_name column_type Hadd Hdel Hmod.
    apply truthy_false in Hdel.
    apply (main_written args w None columns _ Hscan); [|exact Hopen].
    rewrite (generate_modify args None columns _ _ Hadd Hdel Hmod).
    reflexivity.
Qed.

Lemma absent_table_name_prints_None_witness :
  main (Sample.delete "Employee.java" "id")
       (Sample.world "Employee.java" Sample.no_table)
  = changelog_written (Sample.delete "Employee.java" "id")
      ("<dropColumn tableName=" ++ Py.dq ++ "None" ++ Py.dq
       ++ " columnName=" ++ Py.dq ++ "id" ++ Py.dq ++ "/>",
       "<addColumn tableName=" ++ Py.dq ++ "None" ++ Py.dq ++ ">" ++ Py.nl
       ++ "    <column name=" ++ Py.dq ++ "id" ++ Py.dq
       ++ " type=" ++ Py.dq ++ "VARCHAR(255)" ++ Py.dq ++ "/>" ++ Py.nl
       ++ "</addColumn>")
      (Sample.world "Employee.java" Sample.no_table).
Proof.
  refine (proj1 (proj2 (absent_table_name_prints_None
                          (Sample.delete "Employee.java" "id")
                          (Sample.world "Employee.java" Sample.no_table)
                          [(Some "id", "int")] _ _))
                "id" _ _ _).
  - vm_compute. reflexivity.
  - reflexivity.
  - reflexivity.
  - reflexivity.
  - discriminate.
Defined.

(** C10, as stated, fails twice. When the directive given is delete-column
    with an empty column name, the program falls through to create-table
    mode and, the table name being absent, reports the parse failure and
    writes nothing. And with a column name that is not empty, an error is
    reported all the same when the output path cannot be opened. *)
Lemma absent_table_delete_empty_counterexample :
  ~ (forall (args : Namespace) (w : World) (columns : list column)
            (column_name : string),
        parse_java_entity (files w) (resolve w (file args))
        = inr (None, columns) ->
        add_column args = None ->
        delete_column args = Some column_name ->
        main args w
        = changelog_written args
            (generate_delete_column_query None column_name) w)
  /\ ~ (forall (args : Namespace) (w : World) (columns : list column)
               (column_name : string),
           parse_java_entity (files w) (resolve w (file args))
           = inr (None, columns) ->
           add_column args = None ->
           delete_column args = Some column_name ->
           column_name <> EmptyString ->
           main args w
           = changelog_written args
               (generate_delete_column_query None column_name) w).
Proof.
  split; intros H.
  - assert (Hscan : parse_java_entity
                      (files (Sample.world "Employee.java" Sample.no_table))
                      "Employee.java"
                    = inr (None, [(Some "id", "int")]))
      by (vm_compute; reflexivity).
    specialize (H (Sample.delete "Employee.java" EmptyString)
                  (Sample.world "Employee.java" Sample.no_table)
                  [(Some "id", "int")] EmptyString Hscan eq_refl eq_refl).
    apply (f_equal stdout) in H. vm_compute in H. discriminate H.
  - assert (Hscan : parse_java_entity
                      (files (Sample.world_without "app_liquibase_query.xml"
                                "app.java/Employee.java" Sample.no_table))
                      "app.java/Employee.java"
                    = inr (None, [(Some "id", "int")]))
      by (vm_compute; reflexivity).
    specialize (H (Sample.delete "app.java/Employee.java" "id")
                  (Sample.world_without "app_liquibase_query.xml"
                     "app.java/Employee.java" Sample.no_table)
                  [(Some "id", "int")] "id" Hscan eq_refl eq_refl
                  ltac:(discriminate)).
    apply (f_equal stdout) in H. vm_compute in H. discriminate H.
Qed.

(** ** What a group captures *)

Lemma star_greedy_run {A : Type} (p : ascii -> bool) (s : string)
      (k : string -> option A) (x : A) :
  Re.star_greedy p s k = Some x ->
  exists w s' : string, s = w ++ s' /\ all_chars p w = true /\ k s' = Some x.
Proof.
  induction s as [|c s IH]; cbn [Re.star_greedy]; intros H.
  - exists EmptyString, EmptyString. auto.
  - destruct (p c) eqn:Hc; [|exists EmptyString, (String c s); auto].
    destruct (Re.star_greedy p s k) as [y|] eqn:E; cbn [Re.orelse] in H.
    + injection H as ->. destruct (IH eq_refl) as (w & s' & -> & Hw & Hk).
      exists (String c w), s'. cbn [all_chars]. rewrite Hc, Hw. auto.
    + exists EmptyString, (String c s). auto.
Qed.

Lemma star_lazy_run {A : Type} (p : ascii -> bool) (s : string)
      (k : string -> option A) (x : A) :
  Re.star_lazy p s k = Some x ->
  exists w s' : string, s = w ++ s' /\ all_chars p w = true /\ k s' = Some x.
Proof.
  induction s as [|c s IH]; cbn [Re.star_lazy]; intros H.
  - destruct (k EmptyString) eqn:E; cbn [Re.orelse] in H; [|discriminate H].
    injection H as ->. exists EmptyString, EmptyString. auto.
  - destruct (k (String c s)) eqn:E; cbn [Re.orelse] in H.
    + injection H as ->. exists EmptyString, (String c s). auto.
    + destruct (p c) eqn:Hc; [|discriminate H].
      destruct (IH H) as (w & s' & -> & Hw & Hk).
      exists (String c w), s'. cbn [all_chars]. rewrite Hc, Hw. auto.
Qed.

Lemma length_append (w s : string) :
  String.length (w ++ s) = String.length w + String.length s.
Proof.
  induction w as [|c w IH]; [reflexivity|].
  rewrite append_cons. cbn [String.length]. rewrite IH. reflexivity.
Qed.

Lemma substring_all (w : string) (s : string) :
  String.substring 0 (String.length w) (w ++ s) = w.
Proof.
  induction w as [|c w IH].
  - destruct s; reflexivity.
  - rewrite append_cons. cbn [String.length String.substring]. rewrite IH.
    reflexivity.
Qed.

(** The text that a group hands to its continuation is the run just
    consumed. *)
Lemma consumed_run (w s : string) :
  String.substring 0 (String.length (w ++ s) - String.length s) (w ++ s) = w.
Proof.
  rewrite length_append.
  replace (String.length w + String.length s - String.length s)
    with (String.length w) by lia.
  apply substring_all.
Qed.

Lemma rmatch_rest {A : Type} (r rest : Re.regex) (s : string) (g : Re.captures)
      (k : string -> Re.captures -> option A) (x : A) :
  Re.rmatch (Re.Cat r rest) s g k = Some x ->
  exists (s' : string) (g' : Re.captures), Re.rmatch rest s' g' k = Some x.
Proof.
  cbn [Re.rmatch]. intros H.
  apply rmatch_groups in H as (s' & g' & H & _). eauto.
Qed.

Lemma rmatch_group_free {A : Type} (r : Re.regex) :
  group_free r = true ->
  forall (s : string) (g : Re.captures)
         (k : string -> Re.captures -> option A) (x : A),
    Re.rmatch r s g k = Some x -> exists s' : string, k s' g = Some x.
Proof.
  induction r as [p|p|p|p|r1 IH1 r2 IH2|r1 IH1 r2 IH2|i r IH];
    cbn [group_free]; intros Hfree s g k x H; cbn [Re.rmatch] in H.
  - destruct (Re.drop_prefix p s) as [s'|]; [eauto|discriminate H].
  - apply star_greedy_continues in H. exact H.
  - destruct s as [|c s]; [discriminate H|]. destruct (p c); [|discriminate H].
    apply star_greedy_continues in H. exact H.
  - apply star_lazy_continues in H. exact H.
  - apply andb_prop in Hfree as [H1 H2].
    apply (IH1 H1) in H as [s1 H]. apply (IH2 H2) in H. exact H.
  - apply andb_prop in Hfree as [H1 H2].
    destruct (Re.rmatch r1 s g k) as [y|] eqn:E; cbn [Re.orelse] in H.
    + injection H as ->. apply (IH1 H1) in E. exact E.
    + apply (IH2 H2) in H. exact H.
  - discriminate Hfree.
Qed.

(** A group around a greedy [c+], followed by a pattern without groups:
    the group of the match is a non-empty run of [p]. *)
Lemma rmatch_plus_group (n : nat) (p : ascii -> bool) (post : Re.regex)
      (s : string) (g m : Re.captures) :
  group_free post = true ->
  Re.rmatch (Re.Cat (Re.Grp n (Re.Plus p)) post) s g (fun _ g' => Some g') = Some m ->
  exists w : string,
    Re.group m n = Some w /\ w <> EmptyString /\ all_chars p w = true.
Proof.
  intros Hfree H. cbn [Re.rmatch] in H.
  destruct s as [|c s]; [discriminate H|].
  destruct (p c) eqn:Hc; [|discriminate H].
  apply star_greedy_run in H as (w & s' & -> & Hw & H).
  apply (rmatch_group_free post Hfree) in H as [s'' H].
  change (String c (w ++ s')) with (String c w ++ s') in H.
  rewrite consumed_run in H. injection H as <-.
  exists (String c w). cbn [Re.group all_chars]. rewrite Nat.eqb_refl, Hc, Hw.
  repeat split. discriminate.
Qed.

(** A group around a lazy [c*?], followed by a pattern without groups. *)
Lemma rmatch_lazy_group (n : nat) (p : ascii -> bool) (post : Re.regex)
      (s : string) (g m : Re.captures) :
  group_free post = true ->
  Re.rmatch (Re.Cat (Re.Grp n (Re.LazyStar p)) post) s g (fun _ g' => Some g') = Some m ->
  exists w : string, Re.group m n = Some w /\ all_chars p w = true.
Proof.
  intros Hfree H. cbn [Re.rmatch] in H.
  apply star_lazy_run in H as (w & s' & -> & Hw & H).
  apply (rmatch_group_free post Hfree) in H as [s'' H].
  rewrite consumed_run in H. injection H as <-.
  exists w. cbn [Re.group]. rewrite Nat.eqb_refl. auto.
Qed.

Lemma search_rmatch (r : Re.regex) (s : string) (m : Re.captures) :
  Re.search r s = Some m ->
  exists s' : string, Re.rmatch r s' [] (fun _ g => Some g) = Some m.
Proof.
  induction s as [|c s IH]; cbn [Re.search]; intros H.
  - destruct (Re.rmatch r EmptyString [] (fun _ g => Some g)) eqn:E;
      [|discriminate H].
    injection H as ->. eauto.
  - destruct (Re.rmatch r (String c s) [] (fun _ g => Some g)) eqn:E;
      [injection H as ->; eauto|auto].
Qed.

Lemma field_type_is_word (next : string) (m : Re.captures) :
  Re.search field_re next = Some m ->
  exists ty : string,
    Re.group m 2 = Some ty /\ ty <> EmptyString /\ all_chars Re.word ty = true.
Proof.
  intros H. apply search_rmatch in H as [s H].
  unfold field_re in H. cbn [Re.seq] in H.
  apply rmatch_rest in H as (s1 & g1 & H).
  apply rmatch_rest in H as (s2 & g2 & H).
  apply rmatch_plus_group in H; [exact H|reflexivity].
Qed.

Lemma method_type_is_word (next : string) (m : Re.captures) :
  Re.search method_re next = Some m ->
  exists ty : string,
    Re.group m 1 = Some ty /\ ty <> EmptyString /\ all_chars Re.word ty = true.
Proof.
  intros H. apply search_rmatch in H as [s H].
  unfold method_re in H. cbn [Re.seq] in H.
  apply rmatch_rest in H as (s1 & g1 & H).
  apply rmatch_rest in H as (s2 & g2 & H).
  apply rmatch_plus_group in H; [exact H|reflexivity].
Qed.

Lemma annotation_name_one_line (kind line : string) (m : Re.captures) :
  Re.search
    (Re.seq [Re.Str kind; Re.Star Re.space; Re.Str "="; Re.Star Re.space;
             Re.Str Py.dq; Re.Grp 1 (Re.LazyStar Re.dot); Re.Str Py.dq;
             Re.Str ")"]) line = Some m ->
  exists name : string,
    Re.group m 1 = Some name /\ all_chars Re.dot name = true.
Proof.
  intros H. apply search_rmatch in H as [s H]. cbn [Re.seq] in H.
  do 5 (apply rmatch_rest in H as (? & ? & H)).
  apply rmatch_lazy_group in H; [exact H|reflexivity].
Qed.

(** ** What the scanner can return *)

Lemma column_entry_well_formed (line next : string) (c : column) :
  column_entry line next = Some c -> well_formed_column c.
Proof.
  unfold column_entry, well_formed_column.
  destruct (Re.search column_re line) as [m|] eqn:Hm; [|discriminate].
  destruct (annotation_name_one_line "@Column(name" line m Hm)
    as (name & Hname & Hdot).
  destruct (Re.search field_re next) as [f|] eqn:Hf.
  - destruct (field_type_is_word next f Hf) as (ty & Hty & Hne & Hword).
    rewrite Hty. destruct ty as [|a ty]; [congruence|].
    intros [= <-]. exists name. cbn [fst snd]. repeat split; auto.
  - destruct (Re.search method_re next) as [g|] eqn:Hg; [|discriminate].
    destruct (method_type_is_word next g Hg) as (ty & Hty & Hne & Hword).
    rewrite Hty. destruct ty as [|a ty]; [congruence|].
    intros [= <-]. exists name. cbn [fst snd]. repeat split; auto.
Qed.

Lemma columns_in_order_well_formed (lines : list string) :
  Forall well_formed_column (columns_in_order lines).
Proof.
  induction lines as [|line [|next rest] IH]; cbn [columns_in_order];
    [constructor|constructor|].
  apply Forall_app. split; [|exact IH].
  destruct (column_entry line next) as [c|] eqn:E; cbn [option_list];
    [|constructor].
  constructor; [|constructor]. exact (column_entry_well_formed line next c E).
Qed.

Lemma table_update_snoc (lines : list string) (line : string)
      (table_name : option string) :
  fold_left table_update (lines ++ [line]) table_name
  = table_update (fold_left table_update lines table_name) line.
Proof. rewrite fold_left_app. reflexivity. Qed.

Lemma table_name_one_line (lines : list string) (name : string) :
  fold_left table_update lines None = Some name ->
  all_chars Re.dot name = true.
Proof.
  induction lines as [|line lines IH] using rev_ind; [discriminate|].
  rewrite table_update_snoc. unfold table_update at 1.
  destruct (Re.search table_re line) as [m|] eqn:Hm; [|exact IH].
  destruct (annotation_name_one_line "@Table(name" line m Hm)
    as (name' & Hname & Hdot).
  rewrite Hname. intros [= <-]. exact Hdot.
Qed.

Lemma table_name_absent (lines : list string) :
  fold_left table_update lines None = None
  <-> Forall (fun line => Re.search table_re line = None) lines.
Proof.
  induction lines as [|line lines IH] using rev_ind.
  - split; [constructor|reflexivity].
  - rewrite table_update_snoc, Forall_app, Forall_singleton.
    unfold table_update at 1.
    destruct (Re.search table_re line) as [m|] eqn:Hm.
    + destruct (table_capture_is_str line m Hm) as [name Hname].
      rewrite Hname. split; [discriminate|]. intros [_ H]. discriminate H.
    + rewrite IH. tauto.
Qed.

Lemma parse_java_entity_returned (fs : gmap string string) (path : string)
      (table_name : option string) (columns : list column) :
  parse_java_entity fs path = inr (table_name, columns) ->
  exists text : string,
    fs !! path = Some text
    /\ column_on_last_line (Py.readlines text) = false
    /\ table_name = fold_left table_update (Py.readlines text) None
    /\ columns = columns_in_order (Py.readlines text).
Proof.
  intros H. destruct (fs !! path) as [text|] eqn:Hfile.
  - rewrite (parse_java_entity_eq fs path text Hfile) in H.
    destruct (column_on_last_line (Py.readlines text)) eqn:Hlast;
      [discriminate H|].
    injection H as <- <-. exists text. auto.
  - unfold parse_java_entity in H. rewrite Hfile in H. discriminate H.
Qed.

(** X2: what a scan that returns can hold: every column has a [str] name
    without a line feed and a type that is a non-empty run of word
    characters (so no generic or array type is ever recorded); a table
    name, when there is one, has no line feed. *)
Theorem scanned_columns_well_formed (fs : gmap string string) (path : string)
        (table_name : option string) (columns : list column) :
  parse_java_entity fs path = inr (table_name, columns) ->
  Forall well_formed_column columns
  /\ forall name : string,
      table_name = Some name -> all_chars Re.dot name = true.
Proof.
  intros H.
  apply parse_java_entity_returned in H as (text & _ & _ & -> & ->).
  split; [apply columns_in_order_well_formed|].
  intros name. apply table_name_one_line.
Qed.

Lemma scanned_columns_well_formed_witness :
  Forall well_formed_column [(Some "id", "int"); (Some "email", "String")]
  /\ forall name : string,
      Some "Employee" = Some name -> all_chars Re.dot name = true.
Proof.
  apply (scanned_columns_well_formed
           {[ "Employee.java" := Sample.employee2 ]} "Employee.java").
  vm_compute. reflexivity.
Defined.

(** X3: the table name of a scan that returns is [None] exactly when no
    line of the file matches the table pattern. *)
Theorem table_name_absent_iff (fs : gmap string string) (path text : string)
        (table_name : option string) (columns : list column) :
  fs !! path = Some text ->
  parse_java_entity fs path = inr (table_name, columns) ->
  table_name = None
  <-> Forall (fun line => Re.search table_re line = None) (Py.readlines text).
Proof.
  intros Hfile H.
  apply parse_java_entity_returned in H as (text' & Hfile' & _ & -> & _).
  rewrite Hfile in Hfile'. injection Hfile' as <-. apply table_name_absent.
Qed.

Lemma table_name_absent_iff_witness :
  @None string = None
  <-> Forall (fun line => Re.search table_re line = None)
             (Py.readlines Sample.no_table).
Proof.
  apply (table_name_absent_iff {[ "Employee.java" := Sample.no_table ]}
           "Employee.java" Sample.no_table None [(Some "id", "int")]).
  - reflexivity.
  - vm_compute. reflexivity.
Defined.

Lemma columns_in_order_cons (line next : string) (rest : list string) :
  columns_in_order (line :: next :: rest)
  = (option_list (column_entry line next) ++ columns_in_order (next :: rest))%list.
Proof. reflexivity. Qed.

Lemma columns_in_order_unannotated (lines : list string) :
  Forall (fun line => Re.search column_re line = None) lines ->
  columns_in_order lines = [].
Proof.
  induction lines as [|line [|next rest] IH]; intros H;
    [reflexivity|reflexivity|].
  rewrite columns_in_order_cons. apply Forall_cons in H as [Hline H].
  unfold column_entry. rewrite Hline. exact (IH H).
Qed.

Lemma column_on_last_line_unannotated (lines : list string) :
  Forall (fun line => Re.search column_re line = None) lines ->
  column_on_last_line lines = false.
Proof.
  intros H. unfold column_on_last_line.
  destruct (last lines) as [line|] eqn:Hlast; [|reflexivity].
  apply last_Some in Hlast as [front ->].
  apply Forall_app in H as [_ H]. apply Forall_cons in H as [H _].
  rewrite H. apply bool_decide_eq_false_2. intros [x Hx]. discriminate Hx.
Qed.

(** X6: when the text of the input file is read and no line of it carries
    a column annotation (an empty text among them), the scan returns, with
    an empty column list; with no directive given, [main] then prints the
    parse-failure line and writes nothing, table declaration or not. *)
Theorem unannotated_file_yields_nothing (args : Namespace) (w : World)
        (text : string) :
  files w !! resolve w (file args) = Some text ->
  Forall (fun line => Re.search column_re line = None) (Py.readlines text) ->
  (exists table_name : option string,
      parse_java_entity (files w) (resolve w (file args))
      = inr (table_name, []))
  /\ (add_column args = None ->
      delete_column args = None ->
      modify_column args = None ->
      main args w = print "Error: Could not parse table name or columns." w).
Proof.
  intros Hfile Hnone.
  assert (Hscan : parse_java_entity (files w) (resolve w (file args))
                  = inr (fold_left table_update (Py.readlines text) None, [])).
  { rewrite (parse_java_entity_eq _ _ text Hfile).
    rewrite (column_on_last_line_unannotated _ Hnone).
    rewrite (columns_in_order_unannotated _ Hnone). reflexivity. }
  split; [eauto|].
  intros Hadd Hdel Hmod. rewrite (main_scanned args w _ _ Hscan).
  rewrite (generate_create args _ _ Hadd); [|rewrite Hdel; reflexivity|exact Hmod].
  cbn [Py.truthy_list]. rewrite andb_false_r. reflexivity.
Qed.

Lemma unannotated_file_yields_nothing_witness :
  (exists table_name : option string,
      parse_java_entity {[ "Employee.java" := Sample.table_decl "Employee" ]}
                        "Employee.java" = inr (table_name, []))
  /\ (@None (string * string) = None ->
      @None string = None ->
      @None (string * string) = None ->
      main (Sample.create "Employee.java")
           (Sample.world "Employee.java" (Sample.table_decl "Employee"))
      = print "Error: Could not parse table name or columns."
              (Sample.world "Employee.java" (Sample.table_decl "Employee"))).
Proof.
  apply (unannotated_file_yields_nothing (Sample.create "Employee.java")
           (Sample.world "Employee.java" (Sample.table_decl "Employee"))
           (Sample.table_decl "Employee")).
  - reflexivity.
  - vm_compute. repeat constructor.
Defined.

(** ** Scanning lines put one after the other *)

Lemma column_on_last_line_app (l1 l2 : list string) :
  column_on_last_line (l1 ++ l2)
  = match l2 with
    | [] => column_on_last_line l1
    | _ :: _ => column_on_last_line l2
    end.
Proof.
  unfold column_on_last_line. rewrite last_app.
  destruct l2 as [|line l2]; [reflexivity|].
  destruct (last (line :: l2)) eqn:E; [reflexivity|].
  apply last_None in E. discriminate E.
Qed.

Lemma columns_in_order_app (l1 l2 : list string) :
  column_on_last_line l1 = false ->
  columns_in_order (l1 ++ l2)
  = (columns_in_order l1 ++ columns_in_order l2)%list.
Proof.
  induction l1 as [|line [|next rest] IH]; intros Hlast.
  - reflexivity.
  - unfold column_on_last_line in Hlast. cbn [last] in Hlast.
    apply bool_decide_eq_false_1 in Hlast.
    destruct l2 as [|next l2]; [reflexivity|].
    change ([line] ++ next :: l2)%list with (line :: next :: l2).
    rewrite columns_in_order_cons. unfold column_entry.
    destruct (Re.search column_re line) as [m|]; [|reflexivity].
    exfalso. apply Hlast. eauto.
  - change ((line :: next :: rest) ++ l2)%list
      with (line :: next :: (rest ++ l2))%list.
    rewrite !columns_in_order_cons, <- app_assoc. f_equal.
    apply IH. exact Hlast.
Qed.

Lemma table_update_from (lines : list string) (table_name : option string) :
  fold_left table_update lines table_name
  = match fold_left table_update lines None with
    | Some name => Some name
    | None => table_name
    end.
Proof.
  induction lines as [|line lines IH] using rev_ind; [reflexivity|].
  rewrite !table_update_snoc. unfold table_update.
  destruct (Re.search table_re line) as [m|] eqn:Hm; [|exact IH].
  destruct (table_capture_is_str line m Hm) as [name ->]. reflexivity.
Qed.

(** X7: the loop over two runs of lines put one after the other, when it
    returns on each: the columns are those of the first followed by those
    of the second, nothing being removed, and the table name is that of
    the second run when it declares one, else that of the first. *)
Theorem scan_app (l1 l2 : list string) (table1 table2 : option string)
        (columns1 columns2 : list column) :
  scan l1 = inr (table1, columns1) ->
  scan l2 = inr (table2, columns2) ->
  scan (l1 ++ l2)
  = inr (match table2 with Some _ => table2 | None => table1 end,
         (columns1 ++ columns2)%list).
Proof.
  intros Hscan1 Hscan2. rewrite scan_eq in Hscan1, Hscan2.
  destruct (column_on_last_line l1) eqn:H1; [discriminate Hscan1|].
  destruct (column_on_last_line l2) eqn:H2; [discriminate Hscan2|].
  injection Hscan1 as <- <-. injection Hscan2 as <- <-.
  rewrite scan_eq, column_on_last_line_app.
  rewrite (columns_in_order_app l1 l2 H1), fold_left_app.
  rewrite (table_update_from l2 (fold_left table_update l1 None)).
  assert (Hlast : match l2 with
                  | [] => column_on_last_line l1
                  | _ :: _ => column_on_last_line l2
                  end = false) by (destruct l2; assumption).
  rewrite Hlast.
  destruct (fold_left table_update l2 None); reflexivity.
Qed.

Lemma scan_app_witness :
  scan (Py.readlines Sample.employee ++ Py.readlines Sample.renamed)
  = inr (Some "Employee", [(Some "id", "int"); (Some "id", "Long")]).
Proof.
  apply (scan_app (Py.readlines Sample.employee) (Py.readlines Sample.renamed)
           (Some "Employee") (Some "Employee")
           [(Some "id", "int")] [(Some "id", "Long")]).
  - vm_compute. reflexivity.
  - vm_compute. reflexivity.
Defined.

(** ** A column annotation on the last line *)

(** X1: when the text of the input file is read, the scan raises
    [IndexError] exactly when the last line read carries a column
    annotation; [main] then prints the message of the exception and writes
    nothing, whatever directives are given, the single-column ones
    included. *)
Theorem trailing_annotation_fails_every_mode (args : Namespace) (w : World)
        (text : string) :
  files w !! resolve w (file args) = Some text ->
  (parse_java_entity (files w) (resolve w (file args)) = inl IndexError
   <-> column_on_last_line (Py.readlines text) = true)
  /\ (column_on_last_line (Py.readlines text) = true ->
      main args w = print "Error: list index out of range" w).
Proof.
  intros Hfile. rewrite (parse_java_entity_eq _ _ text Hfile).
  destruct (column_on_last_line (Py.readlines text)) eqn:Hlast.
  - repeat split; try congruence. intros _. unfold main, run.
    rewrite bool_decide_eq_true_2 by (rewrite Hfile; eauto).
    rewrite (parse_java_entity_eq _ _ text Hfile), Hlast. reflexivity.
  - repeat split; intros; congruence.
Qed.

Lemma trailing_annotation_fails_every_mode_witness :
  main (Sample.add "Employee.java" "email" "String")
       (Sample.world "Employee.java" Sample.trailing_column)
  = print "Error: list index out of range"
          (Sample.world "Employee.java" Sample.trailing_column).
Proof.
  apply (trailing_annotation_fails_every_mode
           (Sample.add "Employee.java" "email" "String")
           (Sample.world "Employee.java" Sample.trailing_column)
           Sample.trailing_column).
  - reflexivity.
  - vm_compute. reflexivity.
Defined.

(** ** The database types *)

(** X8: whatever its argument, the mapper returns one of six database
    types. *)
Theorem map_java_type_to_db_type_range (java_type : string) :
  map_java_type_to_db_type java_type
  ∈ ["VARCHAR(255)"; "INTEGER"; "BIGINT"; "BOOLEAN"; "TIMESTAMP";
     "DECIMAL(19,2)"].
Proof.
  unfold map_java_type_to_db_type.
  destruct (type_mapping !! java_type) as [db_type|] eqn:E; cbn [default].
  - unfold type_mapping in E. apply elem_of_list_to_map_2 in E.
    rewrite !elem_of_cons, elem_of_nil in E. rewrite !elem_of_cons.
    repeat (destruct E as [E|E]; [injection E as _ ->; tauto|]).
    destruct E.
  - rewrite elem_of_cons. auto.
Qed.

(** X9: the rollback of modify-column is the forward fragment of a
    modification to any type mapped to VARCHAR(255), whatever the new type
    asked for; the two fragments of one call are equal when the new type
    itself is mapped to VARCHAR(255). *)
Theorem modify_rollback_is_modify_to_varchar
        (table_name : option string) (column_name column_type : string) :
  (forall other_type : string,
      map_java_type_to_db_type other_type = "VARCHAR(255)" ->
      snd (generate_modify_column_query table_name column_name column_type)
      = fst (generate_modify_column_query table_name column_name other_type))
  /\ (map_java_type_to_db_type column_type = "VARCHAR(255)" ->
      fst (generate_modify_column_query table_name column_name column_type)
      = snd (generate_modify_column_query table_name column_name column_type)).
Proof.
  unfold generate_modify_column_query. cbn [fst snd]. split.
  - intros other_type ->. reflexivity.
  - intros ->. reflexivity.
Qed.

Lemma modify_rollback_is_modify_to_varchar_witness :
  snd (generate_modify_column_query (Some "Employee") "id" "long")
  = fst (generate_modify_column_query (Some "Employee") "id" "UUID").
Proof.
  apply (proj1 (modify_rollback_is_modify_to_varchar
                  (Some "Employee") "id" "long") "UUID").
  vm_compute. reflexivity.
Defined.

(** ** The output path never keeps a [.java] *)

Lemma startswith_split (p s : string) :
  Py.startswith p s = true -> exists rest : string, s = p ++ rest.
Proof.
  revert s. induction p as [|a p IH]; intros s H; [exists s; reflexivity|].
  destruct s as [|b s]; [discriminate H|]. rewrite startswith_cons in H.
  destruct (Ascii.eqb_spec a b) as [->|]; [|discriminate H].
  destruct (IH s H) as [rest ->]. exists rest. reflexivity.
Qed.

Lemma contains_cons (old : string) (c : ascii) (s : string) :
  Py.contains old (String c s)
  = Py.startswith old (String c s) || Py.contains old s.
Proof. reflexivity. Qed.

(** The text up to the first [.java] and the text after it. *)
Lemma first_java (s : string) :
  Py.contains ".java" s = true ->
  exists a b : string, s = a ++ ".java" ++ b /\ Py.contains ".java" a = false.
Proof.
  induction s as [|c s IH]; intros H; [discriminate H|].
  rewrite contains_cons in H.
  destruct (Py.startswith ".java" (String c s)) eqn:Hhere.
  - apply startswith_split in Hhere as [rest ->].
    exists EmptyString, rest. split; reflexivity.
  - destruct (IH H) as (a & b & -> & Ha). exists (String c a), b.
    split; [reflexivity|]. rewrite contains_cons, Ha, orb_false_r.
    destruct (Py.startswith ".java" (String c a)) eqn:E; [|reflexivity].
    rewrite <- Hhere. symmetry.
    apply (startswith_app ".java" (String c a) (".java" ++ b) E).
Qed.

Lemma contains_after_suffix (r : string) :
  Py.contains ".java" ("_liquibase_query.xml" ++ r) = Py.contains ".java" r.
Proof. reflexivity. Qed.

(** An occurrence of [.java] cannot start in [stem] and end in the new
    suffix, whose first character is an underscore. *)
Lemma startswith_suffix_boundary (c : ascii) (stem rest : string) :
  Py.startswith ".java" (String c stem) = false ->
  Py.startswith ".java" (String c stem ++ "_liquibase_query.xml" ++ rest) = false.
Proof.
  intros H.
  destruct (Py.startswith ".java"
              (String c stem ++ "_liquibase_query.xml" ++ rest)) eqn:E;
    [|reflexivity].
  exfalso. rewrite append_cons in E. rewrite startswith_cons in H, E.
  destruct (Ascii.eqb "." c); [|congruence].
  do 4 boundary_step stem H E.
  vm_compute in H. congruence.
Qed.

Lemma contains_replaced (a r : string) :
  Py.contains ".java" a = false ->
  Py.contains ".java" r = false ->
  Py.contains ".java" (a ++ "_liquibase_query.xml" ++ r) = false.
Proof.
  intros Ha Hr. induction a as [|c a IH].
  - change (EmptyString ++ "_liquibase_query.xml" ++ r)
      with ("_liquibase_query.xml" ++ r).
    rewrite contains_after_suffix. exact Hr.
  - rewrite contains_cons in Ha. apply orb_false_elim in Ha as [Hhere Ha].
    rewrite append_cons, contains_cons, <- append_cons.
    rewrite (startswith_suffix_boundary c a r Hhere). exact (IH Ha).
Qed.

Lemma output_file_no_java_upto (n : nat) :
  forall path : string,
    String.length path <= n -> Py.contains ".java" (output_file path) = false.
Proof.
  induction n as [|n IH]; intros path Hlen.
  - destruct path; [reflexivity|cbn in Hlen; lia].
  - destruct (Py.contains ".java" path) eqn:Hjava.
    + apply first_java in Hjava as (a & b & -> & Ha).
      rewrite (output_file_app a b Ha). apply contains_replaced; [exact Ha|].
      apply IH. rewrite !length_append in Hlen. cbn in Hlen. lia.
    + rewrite (output_file_unchanged path Hjava). exact Hjava.
Qed.

Lemma output_file_clean (path : string) :
  Py.contains ".java" (output_file path) = false.
Proof. apply (output_file_no_java_upto (String.length path)). lia. Qed.

(** X10: the output path holds no [.java]: every occurrence is replaced and the
    replacement creates none, so deriving the output path a second time
    changes nothing, and the output path is the input path exactly when
    the input path holds no [.java]. *)
Theorem output_file_no_java (path : string) :
  Py.contains ".java" (output_file path) = false
  /\ output_file (output_file path) = output_file path
  /\ (output_file path = path <-> Py.contains ".java" path = false).
Proof.
  pose proof (output_file_clean path) as Hno.
  split; [exact Hno|]. split.
  - apply output_file_unchanged. exact Hno.
  - split; [|apply output_file_unchanged].
    intros Hsame. rewrite <- Hsame. exact Hno.
Qed.

(** ** What a run leaves behind *)

Lemma main_cases (args : Namespace) (w : World) :
  (exists message : string, main args w = print ("Error: " ++ message) w)
  \/ (exists (table_name : option string) (columns : list column)
             (generated : string * string),
         parse_java_entity (files w) (resolve w (file args))
         = inr (table_name, columns)
         /\ generate args table_name columns = Some generated
         /\ open_error w (output_file (file args)) = None
         /\ main args w = changelog_written args generated w).
Proof.
  destruct (bool_decide (is_Some (files w !! resolve w (file args)))) eqn:Hex.
  - destruct (parse_java_entity (files w) (resolve w (file args)))
      as [e|[table_name columns]] eqn:Hscan.
    + left. exists (exception_str e). unfold main, run.
      rewrite Hex, Hscan. reflexivity.
    + rewrite (main_scanned args w table_name columns Hscan).
      destruct (generate args table_name columns) as [generated|] eqn:Hgen.
      * destruct (open_error w (output_file (file args))) as [e|] eqn:Hopen.
        -- left. exists (exception_str e). reflexivity.
        -- right. exists table_name, columns, generated. auto.
      * left. exists "Could not parse table name or columns.". reflexivity.
  - left. exists ("File '" ++ file args ++ "' not found.").
    unfold main. rewrite Hex. reflexivity.
Qed.

Lemma changelog_written_other (args : Namespace) (generated : string * string)
      (w : World) (key : string) :
  key <> resolve w (output_file (file args)) ->
  files (changelog_written args generated w) !! key = files w !! key.
Proof.
  intros Hne. unfold changelog_written, print, store. cbn [files].
  apply lookup_insert_ne. congruence.
Qed.

Lemma changelog_written_stdout (args : Namespace) (generated : string * string)
      (w : World) :
  stdout (changelog_written args generated w)
  = (stdout w
       ++ [("Liquibase XML created successfully: "
            ++ output_file (file args))%string])%list.
Proof. reflexivity. Qed.

Lemma main_other_files (args : Namespace) (w : World) (key : string) :
  key <> resolve w (output_file (file args)) ->
  files (main args w) !! key = files w !! key.
Proof.
  intros Hne.
  destruct (main_cases args w)
    as [[message ->]|(t & c & g & _ & _ & _ & ->)].
  - reflexivity.
  - apply changelog_written_other. exact Hne.
Qed.



(** X12: the input file is as it was after a run whenever the output path
    names another file. When the output path names the input file, a run
    that scans, generates and can open the output path leaves the change
    log in the input file; that is so for every input path that holds no
    [.java], the output path then being the input path itself. *)
Theorem main_input_file (args : Namespace) (w : World) :
  (resolve w (output_file (file args)) <> resolve w (file args) ->
   files (main args w) !! resolve w (file args)
   = files w !! resolve w (file args))
  /\ (forall (table_name : option string) (columns : list column)
             (generated : string * string),
         resolve w (output_file (file args)) = resolve w (file args) ->
         parse_java_entity (files w) (resolve w (file args))
         = inr (table_name, columns) ->
         generate args table_name columns = Some generated ->
         open_error w (output_file (file args)) = None ->
         files (main args w) !! resolve w (file args)
         = Some (document (fst generated) (snd generated)))
  /\ (Py.contains ".java" (file args) = false ->
      resolve w (output_file (file args)) = resolve w (file args)).
Proof.
  split; [|split].
  - intros Hother. apply main_other_files. congruence.
  - intros table_name columns generated Hsame Hscan Hgen Hopen.
    rewrite (main_written args w table_name columns generated Hscan Hgen Hopen).
    rewrite <- Hsame. apply changelog_written_lookup.
  - intros Hplain. rewrite (output_file_unchanged (file args) Hplain).
    reflexivity.
Qed.

Lemma main_input_file_witness :
  files (main (Sample.add "Employee.java" "email" "String")
              (Sample.world_linked "Employee_liquibase_query.xml"
                 "Employee.java" Sample.employee))
    !! "Employee.java"
  = Some (document
            (fst (generate_add_column_query (Some "Employee") "email" "String"))
            (snd (generate_add_column_query (Some "Employee") "email" "String"))).
Proof.
  apply (proj1 (proj2 (main_input_file
                         (Sample.add "Employee.java" "email" "String")
                         (Sample.world_linked "Employee_liquibase_query.xml"
                            "Employee.java" Sample.employee)))
               (Some "Employee") [(Some "id", "int")]).
  - vm_compute. reflexivity.
  - vm_compute. reflexivity.
  - reflexivity.
  - reflexivity.
Defined.

Lemma parse_java_entity_local (fs1 fs2 : gmap string string) (path : string) :
  fs1 !! path = fs2 !! path ->
  parse_java_entity fs1 path = parse_java_entity fs2 path.
Proof. intros H. unfold parse_java_entity. rewrite H. reflexivity. Qed.

(** The files that a run leaves depend on the files, the names and the
    paths that can be opened, not on what was printed before. *)
Lemma main_files_local (args : Namespace) (w1 w2 : World) :
  files w1 = files w2 ->
  resolve w1 = resolve w2 ->
  open_error w1 = open_error w2 ->
  files (main args w1) = files (main args w2).
Proof.
  intros Hfiles Hresolve Hopen. unfold main, run.
  rewrite Hfiles, Hresolve.
  destruct (bool_decide (is_Some (files w2 !! resolve w2 (file args))));
    cbn [negb]; [|exact Hfiles].
  destruct (parse_java_entity (files w2) (resolve w2 (file args)))
    as [e|[table_name columns]]; cbn [bind]; [exact Hfiles|].
  destruct (generate args table_name columns) as [[query rollback_query]|];
    [|exact Hfiles].
  unfold write_changelog, write_file. rewrite Hopen.
  destruct (open_error w2 (output_file (file args))); cbn [bind raise];
    [exact Hfiles|].
  unfold print, store. cbn [files]. rewrite Hfiles, Hresolve. reflexivity.
Qed.

(** X13: running the program a second time with the same arguments
    leaves the files as the first run left them, provided the output path
    names another file than the input path (so that the first run did not
    write over its input). *)
Theorem main_twice (args : Namespace) (w : World) :
  resolve w (output_file (file args)) <> resolve w (file args) ->
  files (main args (main args w)) = files (main args w).
Proof.
  intros Hother.
  destruct (main_cases args w)
    as [[message Herr]|(t & c & g & Hscan & Hgen & Hopen & Hrun)].
  - rewrite Herr at 1.
    rewrite (main_files_local args (print _ w) w eq_refl eq_refl eq_refl).
    reflexivity.
  - assert (Hsame : parse_java_entity (files (main args w))
                      (resolve (main args w) (file args))
                    = inr (t, c)).
    { rewrite <- Hscan. rewrite Hrun at 2.
      change (resolve (changelog_written args g w)) with (resolve w).
      apply parse_java_entity_local.
      apply main_other_files. congruence. }
    assert (Hopen' : open_error (main args w)
                       (output_file (file args)) = None).
    { rewrite Hrun. exact Hopen. }
    rewrite (main_written args (main args w) t c g Hsame Hgen Hopen').
    rewrite Hrun. unfold changelog_written, print, store. cbn [files resolve].
    apply insert_insert_eq.
Qed.

Lemma main_twice_witness :
  files (main (Sample.create "Employee.java")
           (main (Sample.create "Employee.java")
                 (Sample.world "Employee.java" Sample.employee)))
  = files (main (Sample.create "Employee.java")
                (Sample.world "Employee.java" Sample.employee)).
Proof.
  apply (main_twice (Sample.create "Employee.java")
           (Sample.world "Employee.java" Sample.employee)).
  vm_compute. discriminate.
Defined.

(** ** Which annotations give a column *)

Lemma column_entry_kept (line next : string) :
  is_Some (column_entry line next) <-> kept (line, next).
Proof.
  unfold kept, declares, column_entry. cbn [fst snd].
  destruct (Re.search column_re line) as [m|].
  2: { split; [intros [x Hx]; discriminate Hx|intros [[x Hx] _]; discriminate Hx]. }
  destruct (Re.search field_re next) as [f|] eqn:Hf.
  - destruct (field_type_is_word next f Hf) as (ty & -> & Hne & _).
    destruct ty as [|a ty]; [congruence|]. split; eauto.
  - destruct (Re.search method_re next) as [g|] eqn:Hg.
    + destruct (method_type_is_word next g Hg) as (ty & -> & Hne & _).
      destruct ty as [|a ty]; [congruence|]. split; eauto.
    + split; [intros [x Hx]; discriminate Hx|].
      intros [_ [[x Hx]|[x Hx]]]; discriminate Hx.
Qed.

Lemma columns_in_order_adjacent (lines : list string) :
  columns_in_order lines
  = omap (fun pair => column_entry pair.1 pair.2) (adjacent lines).
Proof.
  induction lines as [|line [|next rest] IH]; [reflexivity|reflexivity|].
  rewrite columns_in_order_cons, IH.
  change (adjacent (line :: next :: rest))
    with ((line, next) :: adjacent (next :: rest)).
  cbn [omap list_omap fst snd].
  destruct (column_entry line next); reflexivity.
Qed.

Lemma length_omap_kept (pairs : list (string * string)) :
  length (omap (fun pair => column_entry pair.1 pair.2) pairs)
  = length (filter kept pairs).
Proof.
  induction pairs as [|[line next] pairs IH]; [reflexivity|].
  rewrite filter_cons. cbn [omap list_omap fst snd].
  destruct (column_entry line next) as [c|] eqn:E.
  - rewrite decide_True by (apply column_entry_kept; rewrite E; eauto).
    cbn [length]. rewrite <- IH. reflexivity.
  - rewrite decide_False; [exact IH|].
    intros H. apply column_entry_kept in H. rewrite E in H.
    destruct H as [x Hx]. discriminate Hx.
Qed.

(** X4: a scan that returns holds one column for every annotated line that is
    followed by a field or public getter declaration, and no other. *)
Theorem scanned_columns_count (fs : gmap string string) (path text : string)
        (table_name : option string) (columns : list column) :
  fs !! path = Some text ->
  parse_java_entity fs path = inr (table_name, columns) ->
  length columns = length (filter kept (adjacent (Py.readlines text))).
Proof.
  intros Hfile H.
  apply parse_java_entity_returned in H as (text' & Hfile' & _ & _ & ->).
  rewrite Hfile in Hfile'. injection Hfile' as <-.
  rewrite columns_in_order_adjacent. apply length_omap_kept.
Qed.

Lemma scanned_columns_count_witness :
  length [(Some "id", "int"); (Some "email", "String")]
  = length (filter kept (adjacent (Py.readlines Sample.employee2))).
Proof.
  apply (scanned_columns_count {[ "Employee.java" := Sample.employee2 ]}
           "Employee.java" Sample.employee2 (Some "Employee")).
  - reflexivity.
  - vm_compute. reflexivity.
Defined.

Lemma columns_in_order_suffix (l1 l2 : list string) :
  l2 <> [] ->
  exists before : list column,
    columns_in_order (l1 ++ l2) = (before ++ columns_in_order l2)%list.
Proof.
  intros Hl2. induction l1 as [|line l1 IH]; [exists []; reflexivity|].
  destruct IH as [before IH].
  destruct (l1 ++ l2)%list as [|next rest] eqn:E.
  - destruct l1; [cbn in E; congruence|discriminate E].
  - change ((line :: l1) ++ l2)%list with (line :: (l1 ++ l2))%list.
    rewrite E, columns_in_order_cons, IH.
    exists (option_list (column_entry line next) ++ before)%list.
    rewrite app_assoc. reflexivity.
Qed.

(** X5: when the line after an annotation holds a field declaration, the
    column takes the type of the field, whether or not the line also holds
    a getter; the column stands after the columns of the lines before it
    and before those of the lines after it. *)
Theorem field_type_wins (fs : gmap string string) (path text : string)
        (l1 : list string) (line next : string) (rest : list string)
        (m f : Re.captures)
        (table_name : option string) (columns : list column) :
  fs !! path = Some text ->
  Py.readlines text = (l1 ++ line :: next :: rest)%list ->
  Re.search column_re line = Some m ->
  Re.search field_re next = Some f ->
  parse_java_entity fs path = inr (table_name, columns) ->
  exists (ty : string) (before : list column),
    Re.group f 2 = Some ty
    /\ columns
       = (before ++ (Re.group m 1, ty) :: columns_in_order (next :: rest))%list.
Proof.
  intros Hfile Hlines Hm Hf H.
  apply parse_java_entity_returned in H as (text' & Hfile' & _ & _ & ->).
  rewrite Hfile in Hfile'. injection Hfile' as <-. rewrite Hlines.
  destruct (field_type_is_word next f Hf) as (ty & Hty & Hne & _).
  destruct (columns_in_order_suffix l1 (line :: next :: rest))
    as [before ->]; [discriminate|].
  exists ty, before. split; [exact Hty|].
  rewrite columns_in_order_cons. unfold column_entry. rewrite Hm, Hf, Hty.
  destruct ty as [|a ty]; [congruence|]. reflexivity.
Qed.

Lemma field_type_wins_witness :
  exists (ty : string) (before : list column),
    Re.group [(2, "Long"); (1, "private")] 2 = Some ty
    /\ [(Some "id", "Long")]
       = app before
             ((Re.group [(1, "id")] 1, ty)
                :: columns_in_order
                     ["    public int getId(); private Long id;" ++ Py.nl;
                      "}" ++ Py.nl]).
Proof.
  apply (field_type_wins
           {[ "Employee.java" := Sample.field_and_getter ]} "Employee.java"
           Sample.field_and_getter
           [Sample.table_decl "Employee"] (Sample.column_decl "id")
           ("    public int getId(); private Long id;" ++ Py.nl)
           ["}" ++ Py.nl] [(1, "id")] [(2, "Long"); (1, "private")]
           (Some "Employee")).
  - reflexivity.
  - vm_compute. reflexivity.
  - vm_compute. reflexivity.
  - vm_compute. reflexivity.
  - vm_compute. reflexivity.
Defined.

(** ** When a run succeeds *)

Lemma generate_is_Some (args : Namespace) (table_name : option string)
      (columns : list column) :
  is_Some (generate args table_name columns)
  <-> single_column_mode args = true
      \/ (Py.truthy table_name = true /\ columns <> []).
Proof.
  unfold generate, single_column_mode.
  destruct (add_column args) as [[column_name column_type]|]; [split; eauto|].
  destruct (delete_column args) as [[|a column_name]|]; cbn [Py.truthy orb];
    try (split; eauto; fail);
    (destruct (modify_column args) as [[column_name' column_type]|];
     [rewrite bool_decide_eq_true_2 by eauto; split; eauto|]);
    rewrite bool_decide_eq_false_2 by (intros [x Hx]; discriminate Hx);
    destruct (Py.truthy table_name), columns as [|c columns];
    cbn [negb orb Py.truthy_list];
    (split; [intros [x Hx]; try discriminate Hx; right; split; congruence
            |intros [H|[H1 H2]]; try discriminate; try congruence; eauto]).
Qed.

Lemma error_is_not_success (message : string) (args : Namespace)
      (generated : string * string) (w : World) :
  print ("Error: " ++ message) w <> changelog_written args generated w.
Proof.
  intros H. apply (f_equal stdout) in H.
  rewrite changelog_written_stdout in H. cbn [print stdout] in H.
  apply app_inj_tail in H as [_ H]. discriminate H.
Qed.

(** X14: a run on parsed arguments writes the change log and reports
    success exactly when the scan returns, the output path can be opened
    for writing, and either the program is in a single-column mode, or the
    scanned table name is not empty and at least one column was scanned. *)
Theorem main_succeeds_iff (args : Namespace) (w : World) :
  (exists generated : string * string,
      main args w = changelog_written args generated w)
  <-> exists (table_name : option string) (columns : list column),
      parse_java_entity (files w) (resolve w (file args))
      = inr (table_name, columns)
      /\ open_error w (output_file (file args)) = None
      /\ (single_column_mode args = true
          \/ (Py.truthy table_name = true /\ columns <> [])).
Proof.
  split.
  - intros [generated Hrun].
    destruct (main_cases args w)
      as [[message Herr]|(t & c & g & Hscan & Hgen & Hopen & _)].
    + rewrite Herr in Hrun. destruct (error_is_not_success _ _ _ _ Hrun).
    + exists t, c. split; [exact Hscan|]. split; [exact Hopen|].
      apply generate_is_Some. rewrite Hgen. eauto.
  - intros (t & c & Hscan & Hopen & Hmode).
    apply generate_is_Some in Hmode as [generated Hgen].
    exists generated. apply (main_written args w t c generated Hscan Hgen Hopen).
Qed.
